(** * flask_simple_jsonrpc: the JSON-RPC dispatcher and its dynamic client

    A shallow embedding of [simple_jsonrpc.py].  Python values are an
    inductive type, a [dict] is an association list in insertion order,
    exceptions are an explicit result type, and the local variables that
    [process_request] assigns inside its [try] block are a record threaded
    through a small state/exception/trace monad, so that the values they
    hold when an exception interrupts the block are the ones the response
    is assembled from.

    Logging and the wall-clock timing around the handler call have no
    influence on what is returned and are left out. *)

From Stdlib Require Import ZArith List String Ascii Bool.
From Stdlib Require Import Floats.SpecFloat.
Import ListNotations.
Open Scope string_scope.
Open Scope Z_scope.
Set Warnings "-register-all".

(** ** Python values *)

(** What [json.loads] can produce ([None], [bool], [int], [float], [str],
    [list], [dict]), together with [bytes] (the only modelled type whose
    instances have a [decode] method) and flask's [Response] object.
    A [str] is a Rocq string, one [ascii] per character. *)
Inductive value : Type :=
| VNone
| VBool (b : bool)
| VInt (n : Z)
| VFloat (f : spec_float)
| VStr (s : string)
| VBytes (b : list Byte.byte)
| VList (l : list value)
| VDict (d : list (string * value))
| VResponse (body : string) (content_type : string).

Definition dict : Type := list (string * value).

(** [bool(v)]: Python's truth value testing. *)
Definition truthy (v : value) : bool :=
  match v with
  | VNone => false
  | VBool b => b
  | VInt n => negb (n =? 0)
  | VFloat f => match f with S754_zero _ => false | _ => true end
  | VStr s => negb (s =? "")%string
  | VBytes b => match b with [] => false | _ => true end
  | VList l => match l with [] => false | _ => true end
  | VDict d => match d with [] => false | _ => true end
  | VResponse _ _ => true
  end.

(** [a or b] *)
Definition py_or (a b : value) : value := if truthy a then a else b.

(** [all(l)] *)
Definition py_all (l : list value) : bool := forallb truthy l.

(** [type(v).__name__] *)
Definition type_name (v : value) : string :=
  match v with
  | VNone => "NoneType"
  | VBool _ => "bool"
  | VInt _ => "int"
  | VFloat _ => "float"
  | VStr _ => "str"
  | VBytes _ => "bytes"
  | VList _ => "list"
  | VDict _ => "dict"
  | VResponse _ _ => "Response"
  end.

Definition is_list (v : value) : bool :=
  match v with VList _ => true | _ => false end.

Definition is_dict (v : value) : bool :=
  match v with VDict _ => true | _ => false end.

(** [isinstance(v, Response)] *)
Definition is_response (v : value) : bool :=
  match v with VResponse _ _ => true | _ => false end.

(** ** Dictionaries with string keys, in insertion order *)

Section Dict.
Context {A : Type}.

(** [d.get(k)] as an option *)
Fixpoint lookup (k : string) (d : list (string * A)) : option A :=
  match d with
  | [] => None
  | (k', v) :: rest => if (k' =? k)%string then Some v else lookup k rest
  end.

(** [d[k] = v]: an existing key keeps its position, a new one goes last. *)
Fixpoint dict_set (k : string) (v : A) (d : list (string * A)) : list (string * A) :=
  match d with
  | [] => [(k, v)]
  | (k', v') :: rest =>
      if (k' =? k)%string then (k, v) :: rest else (k', v') :: dict_set k v rest
  end.

Definition keys (d : list (string * A)) : list string := map fst d.

End Dict.

(** [d.get(k)]: [None] for a missing key *)
Definition dict_get (k : string) (d : dict) : value :=
  match lookup k d with
  | Some v => v
  | None => VNone
  end.

(** ** Exceptions *)

(** [SimpleJsonRpcError] carries the two attributes its constructor stores.
    The other exceptions are split the way the [except] clauses of
    [process_request] split them: those deriving from [Exception], and
    those deriving from [BaseException] only ([SystemExit],
    [KeyboardInterrupt], [GeneratorExit]). *)
Inductive exn : Type :=
| SimpleJsonRpcError (message : value) (code : value)
| PyException (cls : string) (msg : string)
| PyBaseException (cls : string) (msg : string).

Inductive res (A : Type) : Type :=
| Ok (a : A)
| Raise (e : exn).
Arguments Ok {A} a.
Arguments Raise {A} e.

(** [SimpleJsonRpcError.json_rpc_format] *)
Definition json_rpc_format (e_message e_code : value) : value :=
  VDict [("code", e_code); ("message", e_message)].

(** ** What the model takes from Python and its libraries

    [py_repr v] is [repr(v)], [format_exc e] is [traceback.format_exc()]
    while [e] is being handled, [json_loads] is
    [json.loads(data.decode())], [json_encode] is [json.dumps] on a
    serializable value, and [utf8_decode] is [bytes.decode("utf-8")].
    The texts of the exceptions the model raises itself follow CPython's
    wording; nothing proved below depends on them. *)
Class Runtime : Type := {
  py_repr : value -> string;
  format_exc : exn -> string;
  json_loads : string -> res value;
  json_encode : value -> string;
  utf8_decode : list Byte.byte -> res string
}.

(** [str(v)], also what ['{}'.format(v)] inserts *)
Definition py_str `{Runtime} (v : value) : string :=
  match v with
  | VStr s => s
  | _ => py_repr v
  end.

(** The first object [json.dumps] meets that it cannot serialize. *)
Fixpoint unserializable (v : value) : option value :=
  match v with
  | VBytes _ | VResponse _ _ => Some v
  | VList l =>
      (fix first (l : list value) : option value :=
         match l with
         | [] => None
         | x :: rest =>
             match unserializable x with
             | Some o => Some o
             | None => first rest
             end
         end) l
  | VDict d =>
      (fix first (d : list (string * value)) : option value :=
         match d with
         | [] => None
         | (_, x) :: rest =>
             match unserializable x with
             | Some o => Some o
             | None => first rest
             end
         end) d
  | _ => None
  end.

(** [json.dumps(v)] *)
Definition json_dumps `{Runtime} (v : value) : res string :=
  match unserializable v with
  | None => Ok (json_encode v)
  | Some o =>
      Raise (PyException "TypeError"
               ("Object of type " ++ type_name o ++ " is not JSON serializable"))
  end.

Definition dquote : string := String "034" EmptyString.
Definition newline : string := String "010" EmptyString.

(** ** The server: [class SimpleJsonRpcServer] *)

(** A registered callable: what calling it with [*args, **kwargs] yields
    (binding the arguments to its parameters included), the text of
    [str(inspect.signature(f))], and [f.__doc__].  A handler is a function
    of its arguments: state of its own is not modelled. *)
Record handler : Type := {
  h_call : list value -> dict -> res value;
  h_signature : string;
  h_doc : option string
}.

(** The events a dispatch leaves in its trace: the registry being
    consulted for a name, and a handler being called. *)
Inductive event : Type :=
| EvLookup (name : value)
| EvCall (name : value) (args : list value) (kwargs : dict).

(** [def ping(self, *args, kwargs): return 'pong']

    The parameter after [*args] is keyword-only and has no default: the
    bound method accepts any positional arguments, requires the keyword
    [kwargs], and accepts no other keyword. *)
Definition ping (args : list value) (kwargs : dict) : res value :=
  match find (fun kv => negb (fst kv =? "kwargs")%string) kwargs with
  | Some (k, _) =>
      Raise (PyException "TypeError"
               ("ping() got an unexpected keyword argument '" ++ k ++ "'"))
  | None =>
      match lookup "kwargs" kwargs with
      | Some _ => Ok (VStr "pong")
      | None =>
          Raise (PyException "TypeError"
                   "ping() missing 1 required keyword-only argument: 'kwargs'")
      end
  end.

Definition ping_handler : handler :=
  {| h_call := ping; h_signature := "(*args, kwargs)"; h_doc := None |}.

Record SimpleJsonRpcServer : Type := {
  service_url : string;
  show_api : bool;
  urls : list (string * handler)
}.

(** [__init__]: [self.urls = {'ping': self.ping}] *)
Definition init_urls : list (string * handler) := [("ping", ping_handler)].

Definition new_server (service_url : string) (show_api : bool) : SimpleJsonRpcServer :=
  {| service_url := service_url; show_api := show_api; urls := init_urls |}.

(** [register(name)(f)]: [self.urls[name] = f] *)
Definition register (name : string) (f : handler) (srv : SimpleJsonRpcServer)
  : SimpleJsonRpcServer :=
  {| service_url := service_url srv;
     show_api := show_api srv;
     urls := dict_set name f (urls srv) |}.

(** A server after any sequence of registrations. *)
Definition registered (regs : list (string * handler)) (srv : SimpleJsonRpcServer)
  : SimpleJsonRpcServer :=
  fold_left (fun s nf => register (fst nf) (snd nf) s) regs srv.

(** [__expand_params] ([json.loads] produces no tuple, so the
    [(list, tuple)] test is the [list] test). *)
Definition expand_params (params : value) : res (list value * dict) :=
  if negb (truthy params) then Ok ([], [])
  else
    match params with
    | VList l => Ok (l, [])
    | VDict d => Ok ([], d)
    | _ => Raise (SimpleJsonRpcError (VStr "Invalid method parameters") (VInt (-32602)))
    end.

(** [items.get(key)]: only a [dict] has the method. *)
Definition py_get (items : value) (key : string) : res value :=
  match items with
  | VDict d => Ok (dict_get key d)
  | _ =>
      Raise (PyException "AttributeError"
               ("'" ++ type_name items ++ "' object has no attribute 'get'"))
  end.

(** [handler_name not in self.urls] followed by [self.urls[handler_name]]:
    a [list] or [dict] cannot be hashed; the keys are strings, so no other
    value is found. *)
Definition urls_find (urls : list (string * handler)) (name : value)
  : res (option handler) :=
  match name with
  | VList _ | VDict _ =>
      Raise (PyException "TypeError" ("unhashable type: '" ++ type_name name ++ "'"))
  | VStr s => Ok (lookup s urls)
  | _ => Ok None
  end.

(** *** The local variables of [process_request] and its [try] block *)

Record locals : Type := {
  protocol : value;
  tid : value;
  action : value;
  handler_name : value;
  result : value
}.

(** [protocol, tid, action, handler_name, result, error = None, ...] *)
Definition init_locals : locals :=
  {| protocol := VNone; tid := VNone; action := VNone;
     handler_name := VNone; result := VNone |}.

Definition set_handler_name (v : value) (st : locals) : locals :=
  {| protocol := protocol st; tid := tid st; action := action st;
     handler_name := v; result := result st |}.

Definition set_protocol (v : value) (st : locals) : locals :=
  {| protocol := v; tid := tid st; action := action st;
     handler_name := handler_name st; result := result st |}.

Definition set_tid (v : value) (st : locals) : locals :=
  {| protocol := protocol st; tid := v; action := action st;
     handler_name := handler_name st; result := result st |}.

Definition set_result (v : value) (st : locals) : locals :=
  {| protocol := protocol st; tid := tid st; action := action st;
     handler_name := handler_name st; result := v |}.

(** A statement of the [try] block: it reads and writes the locals, adds
    events to the trace, and either completes or raises. *)
Definition Block (A : Type) : Type := locals -> list event * locals * res A.

Definition ret {A} (a : A) : Block A := fun st => ([], st, Ok a).

Definition bind {A B} (m : Block A) (f : A -> Block B) : Block B :=
  fun st =>
    let '(t1, st1, r1) := m st in
    match r1 with
    | Ok a => let '(t2, st2, r2) := f a st1 in ((t1 ++ t2)%list, st2, r2)
    | Raise e => (t1, st1, Raise e)
    end.

Definition raise {A} (e : exn) : Block A := fun st => ([], st, Raise e).
Definition lift {A} (r : res A) : Block A := fun st => ([], st, r).
Definition emit (ev : event) : Block unit := fun st => ([ev], st, Ok tt).
Definition assign (f : locals -> locals) : Block unit := fun st => ([], f st, Ok tt).

Declare Scope block_scope.
Delimit Scope block_scope with block.
Notation "x <- m ;; k" := (bind m (fun x => k))
  (at level 61, m at next level, right associativity) : block_scope.
Notation "' p <- m ;; k" := (bind m (fun p => k))
  (at level 61, p pattern, m at next level, right associativity) : block_scope.
Notation "m ;; k" := (bind m (fun _ => k))
  (at level 61, right associativity) : block_scope.

(** Lines 85-107: the body of the [try]. *)
Definition try_block `{Runtime} (urls : list (string * handler)) (items : value)
  : Block unit :=
  (params <- lift (py_get items "params") ;;
   '(args, kwargs) <- lift (expand_params params) ;;
   name <- lift (py_get items "method") ;;
   assign (set_handler_name name) ;;
   version <- lift (py_get items "version") ;;
   assign (set_protocol version) ;;
   id <- lift (py_get items "id") ;;
   assign (set_tid id) ;;
   (if negb (py_all [py_or (VList args) (VDict kwargs); name; version; id])
    then raise (SimpleJsonRpcError
                  (VStr ("JSON-RPC: Invalid request parameters:" ++ py_str items))
                  (VInt (-32600)))
    else ret tt) ;;
   emit (EvLookup name) ;;
   found <- lift (urls_find urls name) ;;
   match found with
   | None =>
       raise (SimpleJsonRpcError
                (VStr ("JSON-RPC: Method " ++ dquote ++ py_str name ++ dquote
                       ++ " not found"))
                (VInt (-32601)))
   | Some h =>
       emit (EvCall name args kwargs) ;;
       r <- lift (h_call h args kwargs) ;;
       assign (set_result r)
   end)%block.

(** Lines 124-135: the response dictionary. *)
Definition assemble (st : locals) (error : option (value * value)) : value :=
  VDict ([("protocol", protocol st);
          ("tid", tid st);
          ("action", action st);
          ("method", handler_name st);
          ("result", result st)]
         ++ match error with
            | Some (m, c) => [("error", json_rpc_format m c)]
            | None => []
            end)%list.

(** Lines 121-135: what follows the [try] statement. *)
Definition finish (st : locals) (error : option (value * value)) : value :=
  if is_response (result st) then result st else assemble st error.

(** Lines 114-135: the two [except] clauses, then the rest of the method.
    An exception that neither clause catches leaves the method. *)
Definition conclude `{Runtime} (st : locals) (r : res unit) : res value :=
  match r with
  | Ok _ => Ok (finish st None)
  | Raise (SimpleJsonRpcError m c) => Ok (finish st (Some (m, c)))
  | Raise (PyException cls msg) =>
      Ok (finish st (Some (VStr (format_exc (PyException cls msg)), VInt (-32603))))
  | Raise (PyBaseException cls msg) => Raise (PyBaseException cls msg)
  end.

(** [process_request]: the trace of the dispatch and either the value
    returned or the exception that leaves the method. *)
Definition process_request `{Runtime} (urls : list (string * handler)) (items : value)
  : list event * res value :=
  let '(tr, st, r) := try_block urls items init_locals in
  (tr, conclude st r).

(** Lines 68-70: the loop over a batch.  An exception that leaves
    [process_request] leaves the loop. *)
Fixpoint process_batch `{Runtime} (urls : list (string * handler)) (items : list value)
  : list event * res (list value) :=
  match items with
  | [] => ([], Ok [])
  | item :: rest =>
      match process_request urls item with
      | (t1, Raise e) => (t1, Raise e)
      | (t1, Ok r) =>
          match process_batch urls rest with
          | (t2, Raise e) => ((t1 ++ t2)%list, Raise e)
          | (t2, Ok rs) => ((t1 ++ t2)%list, Ok (r :: rs))
          end
      end
  end.

(** *** Discovery: [__return_jrpc_methods_list] *)

(** [str.isspace] on a character below 256 *)
Definition is_space (c : ascii) : bool :=
  let n := nat_of_ascii c in
  ((9 <=? n) && (n <=? 13) || (28 <=? n) && (n <=? 32) || (n =? 133) || (n =? 160))%nat.

Fixpoint lstrip (s : string) : string :=
  match s with
  | EmptyString => EmptyString
  | String c rest => if is_space c then lstrip rest else s
  end.

Fixpoint rstrip (s : string) : string :=
  match s with
  | EmptyString => EmptyString
  | String c rest =>
      match rstrip rest with
      | EmptyString => if is_space c then EmptyString else String c EmptyString
      | kept => String c kept
      end
  end.

(** [s.strip()] *)
Definition strip (s : string) : string := rstrip (lstrip s).

(** [s * n] *)
Fixpoint str_mul (s : string) (n : nat) : string :=
  match n with
  | O => EmptyString
  | S k => s ++ str_mul s k
  end.

(** Lines 159-161: the text appended to [desc] for one registered method. *)
Definition describe (nv : string * handler) : string :=
  let fdesc := fst nv ++ h_signature (snd nv) in
  let fdoc := match h_doc (snd nv) with
              | Some d => strip d
              | None => "No docstring"
              end in
  fdesc ++ newline ++ str_mul "-" (String.length fdesc) ++ newline ++ fdoc.

Definition return_jrpc_methods_list (srv : SimpleJsonRpcServer) : value :=
  if negb (show_api srv) then VResponse "" "text/plain"
  else VResponse (String.concat (newline ++ newline) (map describe (urls srv)))
                 "text/plain; charset=utf-8".

(** *** The transport adapter: [prepare_request] *)

(** What [prepare_request] reads of flask's [request]. *)
Record http_request : Type := {
  req_method : string;
  req_content_type : option string;
  req_data : string
}.

(** [needle in hay] on strings *)
Definition str_in (needle hay : string) : bool :=
  match String.index 0 needle hay with
  | Some _ => true
  | None => false
  end.

(** Lines 67-72 *)
Definition dispatch `{Runtime} (urls : list (string * handler)) (items : value)
  : list event * res value :=
  match items with
  | VList l =>
      match process_batch urls l with
      | (t, Ok rs) => (t, Ok (VList rs))
      | (t, Raise e) => (t, Raise e)
      end
  | _ => process_request urls items
  end.

Definition prepare_request `{Runtime} (srv : SimpleJsonRpcServer) (rq : http_request)
  : list event * res value :=
  if (req_method rq =? "GET")%string then ([], Ok (return_jrpc_methods_list srv))
  else
    let content_type := match req_content_type rq with Some c => c | None => "" end in
    if negb (str_in "application/json" content_type) || (req_data rq =? "")%string
    then ([], Raise (PyException "NotFound" "404 Not Found"))
    else
      match json_loads (req_data rq) with
      | Raise e => ([], Raise e)
      | Ok items =>
          match dispatch (urls srv) items with
          | (t, Raise e) => (t, Raise e)
          | (t, Ok result) =>
              if is_response result then (t, Ok result)
              else
                match json_dumps result with
                | Ok body => (t, Ok (VResponse body "application/json"))
                | Raise e => (t, Raise e)
                end
          end
      end.

(** ** The client: [class SimpleJsonRpcClient] *)

Module Client.

Record SimpleJsonRpcClient : Type := {
  version : value;
  service_url : value;
  service_name : value;
  headers : value
}.

(** [__init__(self, service_url, service_name=None, version='2.0', headers=None)] *)
Definition init (service_url service_name version headers : value)
  : SimpleJsonRpcClient :=
  {| version := version;
     service_url := service_url;
     service_name := service_name;
     headers := py_or headers (VDict [("Content-Type", VStr "application/json")]) |}.

(** [self.__dict__], in the order [__init__] assigns the attributes *)
Definition instance_dict (c : SimpleJsonRpcClient) : dict :=
  [("version", version c);
   ("service_url", service_url c);
   ("service_name", service_name c);
   ("headers", headers c)].

(** [__getattr__]: [self.__class__(params)] passes the dictionary as the
    one positional argument, which is [service_url]; the other parameters
    take their defaults. *)
Definition getattr `{Runtime} (c : SimpleJsonRpcClient) (name : string)
  : SimpleJsonRpcClient :=
  let name := match service_name c with
              | VNone => name
              | sn => py_str sn ++ "." ++ name
              end in
  let params := dict_set "service_name" (VStr name) (instance_dict c) in
  init (VDict params) VNone (VStr "2.0") VNone.

(** Calling an instance: the class defines no [__call__]. *)
Definition call (c : SimpleJsonRpcClient) (args : list value) (kwargs : dict)
  : res value :=
  Raise (PyException "TypeError" "'SimpleJsonRpcClient' object is not callable").

(** [s.decode("utf-8")]: among the modelled values only [bytes] has the
    method. *)
Definition decode `{Runtime} (s : value) : res value :=
  match s with
  | VBytes b =>
      match utf8_decode b with
      | Ok text => Ok (VStr text)
      | Raise e => Raise e
      end
  | _ =>
      Raise (PyException "AttributeError"
               ("'" ++ type_name s ++ "' object has no attribute 'decode'"))
  end.

(** What iterating over [params] yields: the keys of a dictionary, the
    elements of the argument tuple. *)
Definition iterate (params : value) : list value :=
  match params with
  | VDict d => map (fun kv => VStr (fst kv)) d
  | VList l => l
  | _ => []
  end.

(** [list(map(f, l))]: the first exception raised ends the iteration. *)
Fixpoint list_map (f : value -> res value) (l : list value) : res (list value) :=
  match l with
  | [] => Ok []
  | x :: rest =>
      match f x with
      | Raise e => Raise e
      | Ok y =>
          match list_map f rest with
          | Raise e => Raise e
          | Ok ys => Ok (y :: ys)
          end
      end
  end.

(** Lines 186-193 of [send_request]: the dictionary handed to [json.dumps],
    with [request_id] for [str(uuid.uuid4())]. *)
Definition send_request_data `{Runtime} (c : SimpleJsonRpcClient)
  (args : list value) (kwargs : dict) (request_id : string) : res value :=
  let params := if negb (List.length kwargs =? 0)%nat then VDict kwargs else VList args in
  match list_map decode (iterate params) with
  | Raise e => Raise e
  | Ok params =>
      Ok (VDict [("version", version c);
                 ("method", service_name c);
                 ("params", VList params);
                 ("id", VStr request_id)])
  end.

End Client.

(** ** Reading a response *)

(** [response[key]] *)
Definition field (key : string) (response : value) : option value :=
  match response with
  | VDict d => lookup key d
  | _ => None
  end.

(** [response['error']['code']] *)
Definition error_code (response : value) : option value :=
  match field "error" response with
  | Some e => field "code" e
  | None => None
  end.

(** A runtime to evaluate the model on concrete requests.  The texts it
    renders are placeholders, it decodes no request body, and it decodes
    bytes one character per byte; no statement below is about them. *)
Definition plain_runtime : Runtime :=
  {| py_repr := fun v => "<" ++ type_name v ++ ">";
     format_exc := fun _ => "Traceback (most recent call last):";
     json_loads := fun _ => Raise (PyException "JSONDecodeError" "");
     json_encode := fun _ => "";
     utf8_decode := fun b => Ok (string_of_list_byte b) |}.

(** The error code of the response a dispatch returned. *)
Definition response_code {A} (out : A * res value) : option value :=
  match snd out with
  | Ok r => error_code r
  | Raise _ => None
  end.

(** The response dictionary that carries an error and a null result. *)
Definition error_response (protocol tid method : value) (code : Z) (message : string)
  : value :=
  VDict [("protocol", protocol);
         ("tid", tid);
         ("action", VNone);
         ("method", method);
         ("result", VNone);
         ("error", VDict [("code", VInt code); ("message", VStr message)])].

(** The exception [__expand_params] raises. *)
Definition invalid_params : exn :=
  SimpleJsonRpcError (VStr "Invalid method parameters") (VInt (-32602)).

(** Every handler of the registry raises only exceptions that derive from
    [Exception]. *)
Definition raises_only_exceptions (urls : list (string * handler)) : Prop :=
  forall name h args kwargs cls msg,
    lookup name urls = Some h ->
    h_call h args kwargs <> Raise (PyBaseException cls msg).

(** The locals once the three [items.get] assignments are done. *)
Definition parsed (d : dict) : locals :=
  {| protocol := dict_get "version" d;
     tid := dict_get "id" d;
     action := VNone;
     handler_name := dict_get "method" d;
     result := VNone |}.

(** [all([args or kwargs, handler_name, protocol, tid])] on a request. *)
Definition present (d : dict) (args : list value) (kwargs : dict) : bool :=
  py_all [py_or (VList args) (VDict kwargs);
          dict_get "method" d; dict_get "version" d; dict_get "id" d].

(** *** Sample requests and handlers *)

Definition rpc_request (params : option value) (method version id : value) : value :=
  VDict (match params with Some p => [("params", p)] | None => [] end
         ++ [("method", method); ("version", version); ("id", id)])%list.

(** [def add(a, b): return a + b], on integers *)
Definition add_handler : handler :=
  {| h_call := fun args kwargs =>
       match args, kwargs with
       | [VInt a; VInt b], [] => Ok (VInt (a + b))
       | _, _ => Raise (PyException "TypeError" "add()")
       end;
     h_signature := "(a, b)";
     h_doc := Some " Adds two numbers. " |}.

(** A handler taking any positional arguments: [raise ValueError('boom')] *)
Definition fail_handler : handler :=
  {| h_call := fun args kwargs =>
       match kwargs with
       | [] => Raise (PyException "ValueError" "boom")
       | _ => Raise (PyException "TypeError" "fail()")
       end;
     h_signature := "(*args)";
     h_doc := None |}.

(** A handler taking any positional arguments: [sys.exit(0)] *)
Definition quit_handler : handler :=
  {| h_call := fun args kwargs =>
       match kwargs with
       | [] => Raise (PyBaseException "SystemExit" "0")
       | _ => Raise (PyException "TypeError" "quit()")
       end;
     h_signature := "(*args)";
     h_doc := None |}.

(** A handler that answers with a [Response] of its own *)
Definition raw_handler : handler :=
  {| h_call := fun args kwargs => Ok (VResponse "<html/>" "text/html");
     h_signature := "(*args, **kwargs)";
     h_doc := Some "Returns a page." |}.

Definition sample_server : SimpleJsonRpcServer :=
  registered [("add", add_handler); ("fail", fail_handler)]
             (new_server "/json-rpc/" true).

(** A batch of three requests; the handler of the second one raises. *)
Definition sample_batch : value :=
  VList [rpc_request (Some (VList [VInt 1; VInt 2])) (VStr "add") (VStr "2.0")
           (VStr "a");
         rpc_request (Some (VList [VInt 1])) (VStr "fail") (VStr "2.0")
           (VStr "b");
         rpc_request (Some (VList [VInt 3; VInt 4])) (VStr "add") (VStr "2.0")
           (VStr "c")].

Definition quitting_server : SimpleJsonRpcServer :=
  register "quit" quit_handler sample_server.

Definition raw_server : SimpleJsonRpcServer :=
  register "page" raw_handler sample_server.

(** The placeholder runtime in which every request body decodes to
    [items]. *)
Definition decoding_runtime (items : value) : Runtime :=
  {| py_repr := @py_repr plain_runtime;
     format_exc := @format_exc plain_runtime;
     json_loads := fun _ => Ok items;
     json_encode := @json_encode plain_runtime;
     utf8_decode := @utf8_decode plain_runtime |}.

Definition post (body : string) : http_request :=
  {| req_method := "POST";
     req_content_type := Some "application/json";
     req_data := body |}.

(** *** More of the client *)

(** [__repr__]: the dictionary handed to [json.dumps] *)
Definition repr_data (c : Client.SimpleJsonRpcClient) : value :=
  VDict [("version", Client.version c); ("method", Client.service_name c)].

(** What the expression [c.name] evaluates to.  Python calls
    [__getattr__] only when the normal lookup fails.  The normal lookup
    finds the four attributes [__init__] sets and the method
    [send_request]; the other names the class and [object] define all
    start with two underscores, and what an access to such a name gives
    is left out of the model. *)
Inductive attribute : Type :=
| Stored (v : value)
| BoundSendRequest
| Dynamic (c : Client.SimpleJsonRpcClient)
| NotModelled.

Definition getattribute `{Runtime} (c : Client.SimpleJsonRpcClient) (name : string)
  : attribute :=
  match lookup name (Client.instance_dict c) with
  | Some v => Stored v
  | None =>
      if (name =? "send_request")%string then BoundSendRequest
      else if prefix "__" name then NotModelled
      else Dynamic (Client.getattr c name)
  end.

(** [c.n1.n2. ... .nk] when every step is answered by [__getattr__];
    [None] as soon as one is not: the chain then goes on from a value
    that is not a client. *)
Fixpoint attribute_chain `{Runtime} (c : Client.SimpleJsonRpcClient)
  (names : list string) : option Client.SimpleJsonRpcClient :=
  match names with
  | [] => Some c
  | name :: rest =>
      match getattribute c name with
      | Dynamic c' => attribute_chain c' rest
      | _ => None
      end
  end.

(** A name that [__getattr__] answers. *)
Definition dynamic_name (name : string) : bool :=
  negb (existsb (String.eqb name)
          ["version"; "service_url"; "service_name"; "headers"; "send_request"])
  && negb (prefix "__" name).

(** The types [json.loads] produces; none of them has a [decode]
    method. *)
Definition is_json_value (v : value) : bool :=
  match v with
  | VBytes _ | VResponse _ _ => false
  | _ => true
  end.

(** [send_request], whole.  [network url data headers] stands for lines
    194-196: encoding the text, building the [Request], [urlopen] and
    [read()] on what it returns, which is a [bytes] object or an
    exception.  Line 197 then calls [read()] on that [bytes] object. *)
Definition send_request `{Runtime} (c : Client.SimpleJsonRpcClient)
  (args : list value) (kwargs : dict) (request_id : string)
  (network : value -> string -> value -> res (list Byte.byte)) : res value :=
  match Client.send_request_data c args kwargs request_id with
  | Raise e => Raise e
  | Ok data =>
      match json_dumps data with
      | Raise e => Raise e
      | Ok text =>
          match network (Client.service_url c) text (Client.headers c) with
          | Raise e => Raise e
          | Ok req =>
              Raise (PyException "AttributeError"
                       ("'" ++ type_name (VBytes req)
                        ++ "' object has no attribute 'read'"))
          end
      end
  end.

(** *** More sample handlers *)

(** A handler taking any arguments:
    [raise SimpleJsonRpcError(message='denied', code=403)] *)
Definition deny_handler : handler :=
  {| h_call := fun args kwargs =>
       Raise (SimpleJsonRpcError (VStr "denied") (VInt 403));
     h_signature := "(*args, **kwargs)";
     h_doc := None |}.

Definition denying_server : SimpleJsonRpcServer :=
  register "deny" deny_handler sample_server.

(** The response to an item that is not an object. *)
Definition not_an_object_response `{Runtime} (item : value) : value :=
  error_response VNone VNone VNone (-32603)
    (format_exc
       (PyException "AttributeError"
          ("'" ++ type_name item ++ "' object has no attribute 'get'"))).

(** The four codes [process_request] itself puts into a response. *)
Definition dispatcher_codes : list value :=
  [VInt (-32600); VInt (-32601); VInt (-32602); VInt (-32603)].

(** * Properties *)

(** ** The [try] block, case by case *)

Section Dispatcher.
Context `{RT : Runtime}.
Variable urls : list (string * handler).

Lemma try_block_not_dict (items : value) :
  is_dict items = false ->
  try_block urls items init_locals =
    ([], init_locals,
     Raise (PyException "AttributeError"
              ("'" ++ type_name items ++ "' object has no attribute 'get'"))).
Proof.
  destruct items; simpl; intros Hd; try discriminate; reflexivity.
Qed.

Lemma try_block_dict (d : dict) :
  try_block urls (VDict d) init_locals =
    match expand_params (dict_get "params" d) with
    | Raise e => ([], init_locals, Raise e)
    | Ok (args, kwargs) =>
        if negb (present d args kwargs)
        then ([], parsed d,
              Raise (SimpleJsonRpcError
                       (VStr ("JSON-RPC: Invalid request parameters:"
                              ++ py_str (VDict d)))
                       (VInt (-32600))))
        else
          match urls_find urls (dict_get "method" d) with
          | Raise e => ([EvLookup (dict_get "method" d)], parsed d, Raise e)
          | Ok None =>
              ([EvLookup (dict_get "method" d)], parsed d,
               Raise (SimpleJsonRpcError
                        (VStr ("JSON-RPC: Method " ++ dquote
                               ++ py_str (dict_get "method" d)
                               ++ dquote ++ " not found"))
                        (VInt (-32601))))
          | Ok (Some h) =>
              match h_call h args kwargs with
              | Ok r =>
                  ([EvLookup (dict_get "method" d);
                    EvCall (dict_get "method" d) args kwargs],
                   set_result r (parsed d), Ok tt)
              | Raise e =>
                  ([EvLookup (dict_get "method" d);
                    EvCall (dict_get "method" d) args kwargs],
                   parsed d, Raise e)
              end
          end
    end.
Proof.
  unfold try_block, bind, lift, assign, emit, raise, ret, present, py_all; simpl.
  destruct (expand_params (dict_get "params" d)) as [[args kwargs]|e]; simpl;
    [|reflexivity].
  destruct (truthy (py_or (VList args) (VDict kwargs)) && _); simpl; [|reflexivity].
  destruct (urls_find urls (dict_get "method" d)) as [[h|]|e]; simpl;
    try reflexivity.
  destruct (h_call h args kwargs); reflexivity.
Qed.

End Dispatcher.

(** ** Parameter normalization *)

Lemma expand_params_falsy (params : value) :
  truthy params = false -> expand_params params = Ok ([], []).
Proof.
  intros Hf. unfold expand_params. now rewrite Hf.
Qed.

Lemma expand_params_raise (params : value) (e : exn) :
  expand_params params = Raise e ->
  truthy params = true /\ is_list params = false /\ is_dict params = false
  /\ e = invalid_params.
Proof.
  unfold expand_params, invalid_params.
  destruct (truthy params) eqn:Ht; simpl; [|discriminate].
  destruct params; simpl; intros He; try discriminate;
    inversion He; auto.
Qed.

Lemma expand_params_scalar (params : value) :
  truthy params = true -> is_list params = false -> is_dict params = false ->
  expand_params params = Raise invalid_params.
Proof.
  unfold expand_params. intros Ht Hl Hd. rewrite Ht. simpl.
  destruct params; simpl in *; try discriminate; reflexivity.
Qed.

(** What [args or kwargs] is worth in the presence test: the truth value
    of [params] itself. *)
Lemma expand_params_truthy (params : value) (args : list value) (kwargs : dict) :
  expand_params params = Ok (args, kwargs) ->
  truthy (py_or (VList args) (VDict kwargs)) = truthy params.
Proof.
  unfold expand_params.
  destruct (truthy params) eqn:Ht; simpl.
  - destruct params; simpl; intros He; try discriminate;
      inversion He; subst; unfold py_or; simpl in *.
    + rewrite Ht. exact Ht.
    + exact Ht.
  - intros He. inversion He. reflexivity.
Qed.

(** C5: a falsy [params] value (0, the empty string, [False], an empty
    list, an empty dictionary, [None]) is treated as absent:
    [__expand_params] returns the pair of an empty argument list and an
    empty keyword dictionary and raises nothing.  It raises exactly on the
    truthy values that are neither a list nor a dictionary, and then the
    error is the one with code -32602. *)
Theorem falsy_params_are_absent (params : value) :
  (truthy params = false -> expand_params params = Ok ([], []))
  /\ (forall e, expand_params params = Raise e <->
        truthy params = true /\ is_list params = false /\ is_dict params = false
        /\ e = invalid_params).
Proof.
  split; [apply expand_params_falsy|].
  intros e; split; [apply expand_params_raise|].
  intros (Ht & Hl & Hd & ->). now apply expand_params_scalar.
Qed.

Lemma falsy_params_are_absent_witness :
  expand_params (VInt 0) = Ok ([], [])
  /\ expand_params (VStr "") = Ok ([], [])
  /\ expand_params (VBool false) = Ok ([], [])
  /\ expand_params (VList []) = Ok ([], [])
  /\ expand_params (VDict []) = Ok ([], [])
  /\ expand_params VNone = Ok ([], [])
  /\ expand_params (VInt 5) = Raise invalid_params.
Proof.
  pose proof (fun p => proj1 (falsy_params_are_absent p)) as absent.
  pose proof (fun p => proj2 (proj2 (falsy_params_are_absent p) invalid_params))
    as rejected.
  refine (conj (absent (VInt 0) eq_refl)
         (conj (absent (VStr "") eq_refl)
         (conj (absent (VBool false) eq_refl)
         (conj (absent (VList []) eq_refl)
         (conj (absent (VDict []) eq_refl)
         (conj (absent VNone eq_refl)
               (rejected (VInt 5) _))))))).
  repeat split.
Defined.

(** ** Validation and error precedence *)

Lemma process_request_normalization_failure `{Runtime}
  (urls : list (string * handler)) (d : dict) (e : exn) :
  expand_params (dict_get "params" d) = Raise e ->
  process_request urls (VDict d) =
    ([], Ok (error_response VNone VNone VNone (-32602) "Invalid method parameters")).
Proof.
  intros He. unfold process_request. rewrite try_block_dict, He.
  apply expand_params_raise in He as (_ & _ & _ & ->).
  reflexivity.
Qed.

(** C4, amended: a request object whose [params] is a truthy value that is
    neither a list nor a dictionary (a non-zero number, a non-empty string,
    [True]) fails normalization, and its response carries the error code
    -32602.  A falsy scalar is treated as absent instead. *)
Theorem truthy_scalar_params_rejected `{Runtime}
  (urls : list (string * handler)) (d : dict) :
  truthy (dict_get "params" d) = true ->
  is_list (dict_get "params" d) = false ->
  is_dict (dict_get "params" d) = false ->
  expand_params (dict_get "params" d) = Raise invalid_params
  /\ response_code (process_request urls (VDict d)) = Some (VInt (-32602)).
Proof.
  intros Ht Hl Hd.
  pose proof (expand_params_scalar _ Ht Hl Hd) as He.
  split; [exact He|].
  now rewrite (process_request_normalization_failure urls d _ He).
Qed.

Lemma truthy_scalar_params_rejected_witness :
  response_code
    (@process_request plain_runtime init_urls
       (rpc_request (Some (VStr "abc")) (VStr "ping") (VStr "2.0") (VStr "1")))
  = Some (VInt (-32602)).
Proof.
  exact (proj2 (@truthy_scalar_params_rejected plain_runtime init_urls
                  [("params", VStr "abc"); ("method", VStr "ping");
                   ("version", VStr "2.0"); ("id", VStr "1")]
                  eq_refl eq_refl eq_refl)).
Defined.

(** C4 as stated fails on the number 0: normalization succeeds with no
    arguments, and the response carries -32600, not -32602. *)
Lemma zero_params_is_not_invalid_params :
  expand_params (VInt 0) = Ok ([], [])
  /\ response_code
       (@process_request plain_runtime init_urls
          (rpc_request (Some (VInt 0)) (VStr "ping") (VStr "2.0") (VStr "1")))
     = Some (VInt (-32600)).
Proof.
  split; reflexivity.
Qed.

(** C6, amended: parameter normalization runs before the handler lookup.
    When it fails, the response carries the error code -32602 and the
    registry is never consulted (the trace of the dispatch is empty), also
    when the request names an unregistered method.  The response carries a
    null [protocol], [tid] and [method]: the request's fields are read only
    after normalization has succeeded. *)
Theorem normalization_failure_precedes_lookup `{Runtime}
  (urls : list (string * handler)) (d : dict) (e : exn) :
  expand_params (dict_get "params" d) = Raise e ->
  process_request urls (VDict d) =
    ([], Ok (VDict [("protocol", VNone);
                    ("tid", VNone);
                    ("action", VNone);
                    ("method", VNone);
                    ("result", VNone);
                    ("error", VDict [("code", VInt (-32602));
                                     ("message", VStr "Invalid method parameters")])])).
Proof.
  intros He. exact (process_request_normalization_failure urls d e He).
Qed.

Lemma normalization_failure_precedes_lookup_witness :
  fst (@process_request plain_runtime init_urls
         (rpc_request (Some (VBool true)) (VStr "no.such.method") (VStr "2.0")
            (VStr "7")))
  = [].
Proof.
  cbv [rpc_request app].
  rewrite (@normalization_failure_precedes_lookup plain_runtime init_urls
             [("params", VBool true); ("method", VStr "no.such.method");
              ("version", VStr "2.0"); ("id", VStr "7")]
             invalid_params eq_refl).
  reflexivity.
Defined.

(** C6 as stated fails: the request below has a parseable protocol, id and
    method, and the -32602 response carries none of them. *)
Lemma invalid_params_response_drops_request_fields :
  @process_request plain_runtime init_urls
    (rpc_request (Some (VInt 5)) (VStr "nope") (VStr "2.0") (VStr "7"))
  = ([], Ok (VDict [("protocol", VNone);
                    ("tid", VNone);
                    ("action", VNone);
                    ("method", VNone);
                    ("result", VNone);
                    ("error", VDict [("code", VInt (-32602));
                                     ("message", VStr "Invalid method parameters")])])).
Proof.
  reflexivity.
Qed.

(** C1, amended: a request object whose parameters normalize passes the
    presence validation, and proceeds to the handler lookup, exactly when
    all four of [params], [method], [version] and [id] are truthy.  When
    one of them is empty, also when only [params] is, the request is
    rejected with code -32600 before the registry is consulted. *)
Theorem validation_requires_every_field `{Runtime}
  (urls : list (string * handler)) (d : dict) (args : list value) (kwargs : dict) :
  expand_params (dict_get "params" d) = Ok (args, kwargs) ->
  (truthy (dict_get "params" d) && truthy (dict_get "method" d)
   && truthy (dict_get "version" d) && truthy (dict_get "id" d) = false ->
   process_request urls (VDict d) =
     ([], Ok (error_response (dict_get "version" d) (dict_get "id" d)
                (dict_get "method" d) (-32600)
                ("JSON-RPC: Invalid request parameters:" ++ py_str (VDict d)))))
  /\ (truthy (dict_get "params" d) && truthy (dict_get "method" d)
      && truthy (dict_get "version" d) && truthy (dict_get "id" d) = true ->
      exists tr out,
        process_request urls (VDict d) = (EvLookup (dict_get "method" d) :: tr, out)).
Proof.
  intros He.
  assert (Hp : present d args kwargs =
               truthy (dict_get "params" d) && truthy (dict_get "method" d)
               && truthy (dict_get "version" d) && truthy (dict_get "id" d)).
  { unfold present, py_all. simpl.
    rewrite (expand_params_truthy _ _ _ He), andb_true_r.
    now rewrite !andb_assoc. }
  unfold process_request. rewrite try_block_dict, He, Hp.
  split; intros ->; simpl.
  - reflexivity.
  - destruct (urls_find urls (dict_get "method" d)) as [[h|]|e'].
    + destruct (h_call h args kwargs); eauto.
    + eauto.
    + eauto.
Qed.

Lemma validation_requires_every_field_witness :
  fst (@process_request plain_runtime init_urls
         (rpc_request None (VStr "ping") (VStr "2.0") (VStr "1"))) = []
  /\ exists tr out,
       @process_request plain_runtime init_urls
         (rpc_request (Some (VList [VInt 1])) (VStr "ping") (VStr "2.0") (VStr "1"))
       = (EvLookup (VStr "ping") :: tr, out).
Proof.
  split.
  - cbv [rpc_request app].
    rewrite (proj1 (@validation_requires_every_field plain_runtime init_urls
                      [("method", VStr "ping"); ("version", VStr "2.0");
                       ("id", VStr "1")] [] [] eq_refl) eq_refl).
    reflexivity.
  - exact (proj2 (@validation_requires_every_field plain_runtime init_urls
                    [("params", VList [VInt 1]); ("method", VStr "ping");
                     ("version", VStr "2.0"); ("id", VStr "1")]
                    [VInt 1] [] eq_refl) eq_refl).
Defined.

(** C1 as stated fails: a request with a truthy method, protocol and id
    and no params at all is rejected with code -32600, and the registry is
    not consulted. *)
Lemma request_without_params_is_rejected :
  fst (@process_request plain_runtime init_urls
         (rpc_request None (VStr "ping") (VStr "2.0") (VStr "1"))) = []
  /\ response_code
       (@process_request plain_runtime init_urls
          (rpc_request None (VStr "ping") (VStr "2.0") (VStr "1")))
     = Some (VInt (-32600)).
Proof.
  split; reflexivity.
Qed.

(** ** Handler lookup and invocation *)

Lemma lookup_none_iff {A : Type} (k : string) (d : list (string * A)) :
  lookup k d = None <-> ~ In k (keys d).
Proof.
  induction d as [|[k' v] rest IH]; simpl.
  - split; [intros _ []|reflexivity].
  - destruct (String.eqb_spec k' k) as [->|Hne].
    + split; [discriminate|]. intros Hn. exfalso. apply Hn. now left.
    + rewrite IH. split.
      * intros Hn [Heq|Hin]; [now apply Hne|now apply Hn].
      * intros Hn Hin. apply Hn. now right.
Qed.

Lemma urls_find_some (urls : list (string * handler)) (name : value) (h : handler) :
  urls_find urls name = Ok (Some h) ->
  exists s, name = VStr s /\ lookup s urls = Some h.
Proof.
  destruct name; simpl; intros Hf; try discriminate.
  inversion Hf. eauto.
Qed.

Lemma urls_find_raise (urls : list (string * handler)) (name : value) (e : exn) :
  urls_find urls name = Raise e -> exists cls msg, e = PyException cls msg.
Proof.
  destruct name; simpl; intros Hf; try discriminate; inversion Hf; eauto.
Qed.

(** A dispatch that reaches the handler. *)
Lemma process_request_call `{Runtime} (urls : list (string * handler)) (d : dict)
  (args : list value) (kwargs : dict) (h : handler) :
  expand_params (dict_get "params" d) = Ok (args, kwargs) ->
  present d args kwargs = true ->
  urls_find urls (dict_get "method" d) = Ok (Some h) ->
  process_request urls (VDict d) =
    ([EvLookup (dict_get "method" d); EvCall (dict_get "method" d) args kwargs],
     match h_call h args kwargs with
     | Ok r => Ok (finish (set_result r (parsed d)) None)
     | Raise e => conclude (parsed d) (Raise e)
     end).
Proof.
  intros He Hp Hf. unfold process_request.
  rewrite try_block_dict, He, Hp, Hf. simpl.
  destruct (h_call h args kwargs); reflexivity.
Qed.

(** A call in the trace of a dispatch tells how the dispatch went. *)
Lemma process_request_called `{Runtime} (urls : list (string * handler))
  (items name : value) (args : list value) (kwargs : dict) :
  In (EvCall name args kwargs) (fst (process_request urls items)) ->
  exists d h,
    items = VDict d
    /\ expand_params (dict_get "params" d) = Ok (args, kwargs)
    /\ present d args kwargs = true
    /\ name = dict_get "method" d
    /\ urls_find urls name = Ok (Some h).
Proof.
  unfold process_request.
  destruct (is_dict items) eqn:Hd.
  - destruct items; try discriminate. rewrite try_block_dict.
    destruct (expand_params (dict_get "params" d)) as [[a k]|e] eqn:He;
      [|intros []].
    destruct (present d a k) eqn:Hp; simpl; [|intros []].
    destruct (urls_find urls (dict_get "method" d)) as [[h|]|e] eqn:Hf; simpl;
      try (intros [Hev|[]]; discriminate).
    assert (Hin : In (EvCall name args kwargs)
                    [EvLookup (dict_get "method" d);
                     EvCall (dict_get "method" d) a k] ->
                  name = dict_get "method" d /\ args = a /\ kwargs = k).
    { intros [Hev|[Hev|[]]]; [discriminate|]. inversion Hev. auto. }
    destruct (h_call h a k); simpl; intros Hev;
      apply Hin in Hev as (-> & -> & ->); exists d, h; auto.
  - rewrite (try_block_not_dict urls items Hd). intros [].
Qed.

Lemma process_request_returns `{Runtime} (urls : list (string * handler))
  (items : value) :
  raises_only_exceptions urls ->
  exists tr r, process_request urls items = (tr, Ok r).
Proof.
  intros Hsafe. unfold process_request.
  destruct (is_dict items) eqn:Hd.
  - destruct items; try discriminate. rewrite try_block_dict.
    destruct (expand_params (dict_get "params" d)) as [[a k]|e] eqn:He.
    + destruct (present d a k); simpl; [|eauto].
      destruct (urls_find urls (dict_get "method" d)) as [[h|]|e] eqn:Hf; simpl.
      * apply urls_find_some in Hf as (s & _ & Hl).
        destruct (h_call h a k) as [r|e] eqn:Hc; simpl; [eauto|].
        destruct e; simpl; eauto.
        exfalso. exact (Hsafe s h a k cls msg Hl Hc).
      * eauto.
      * apply urls_find_raise in Hf as (cls & msg & ->). simpl. eauto.
    + apply expand_params_raise in He as (_ & _ & _ & ->). simpl. eauto.
  - rewrite (try_block_not_dict urls items Hd). simpl. eauto.
Qed.

(** C9, amended: a request that passes validation (a truthy list or
    dictionary as [params], truthy [version] and [id]) and names, by a
    non-empty string, a method that is not a key of the registry gets a
    response with the error code -32601, a message naming the method, and
    a null result.  The lookup is by equality of strings, and no handler is
    called: the trace of the dispatch holds the lookup alone. *)
Theorem unregistered_method_not_found `{Runtime}
  (urls : list (string * handler)) (d : dict) (name : string) :
  truthy (dict_get "params" d) = true ->
  is_list (dict_get "params" d) || is_dict (dict_get "params" d) = true ->
  dict_get "method" d = VStr name ->
  name <> "" ->
  truthy (dict_get "version" d) = true ->
  truthy (dict_get "id" d) = true ->
  ~ In name (keys urls) ->
  process_request urls (VDict d) =
    ([EvLookup (VStr name)],
     Ok (VDict [("protocol", dict_get "version" d);
                ("tid", dict_get "id" d);
                ("action", VNone);
                ("method", VStr name);
                ("result", VNone);
                ("error",
                 VDict [("code", VInt (-32601));
                        ("message",
                         VStr ("JSON-RPC: Method " ++ dquote ++ name ++ dquote
                               ++ " not found"))])])).
Proof.
  intros Hp Hshape Hm Hname Hv Hid Hnot.
  apply lookup_none_iff in Hnot.
  assert (He : exists args kwargs,
             expand_params (dict_get "params" d) = Ok (args, kwargs)).
  { unfold expand_params. rewrite Hp. simpl.
    destruct (dict_get "params" d); simpl in Hshape; try discriminate; eauto. }
  destruct He as (args & kwargs & He).
  assert (Hpres : present d args kwargs = true).
  { unfold present, py_all. simpl.
    rewrite (expand_params_truthy _ _ _ He), Hp, Hm, Hv, Hid. simpl.
    destruct (String.eqb_spec name ""); [contradiction|reflexivity]. }
  unfold process_request.
  rewrite try_block_dict, He, Hpres, Hm. simpl. rewrite Hnot. simpl.
  unfold finish, assemble, parsed. simpl. now rewrite Hm.
Qed.

Lemma unregistered_method_not_found_witness :
  @process_request plain_runtime init_urls
    (rpc_request (Some (VList [VInt 1])) (VStr "Ping") (VStr "2.0") (VStr "7"))
  = ([EvLookup (VStr "Ping")],
     Ok (error_response (VStr "2.0") (VStr "7") (VStr "Ping") (-32601)
           ("JSON-RPC: Method " ++ dquote ++ "Ping" ++ dquote ++ " not found"))).
Proof.
  refine (@unregistered_method_not_found plain_runtime init_urls
            [("params", VList [VInt 1]); ("method", VStr "Ping");
             ("version", VStr "2.0"); ("id", VStr "7")] "Ping"
            eq_refl eq_refl eq_refl _ eq_refl eq_refl _).
  - discriminate.
  - simpl. intros [Heq|[]]. discriminate.
Defined.

(** C9 as stated fails on a request that has a method, a protocol and an
    id but no params: it names an unregistered method and is answered with
    -32600, before any lookup. *)
Lemma unregistered_method_without_params_is_invalid_request :
  fst (@process_request plain_runtime init_urls
         (rpc_request None (VStr "nope") (VStr "2.0") (VStr "1"))) = []
  /\ response_code
       (@process_request plain_runtime init_urls
          (rpc_request None (VStr "nope") (VStr "2.0") (VStr "1")))
     = Some (VInt (-32600)).
Proof.
  split; reflexivity.
Qed.

(** The outcome of a dispatch whose handler raised. *)
Lemma process_request_raised `{Runtime} (urls : list (string * handler))
  (items : value) (name : string) (args : list value) (kwargs : dict)
  (h : handler) (e : exn) :
  In (EvCall (VStr name) args kwargs) (fst (process_request urls items)) ->
  lookup name urls = Some h ->
  h_call h args kwargs = Raise e ->
  exists d,
    items = VDict d
    /\ dict_get "method" d = VStr name
    /\ snd (process_request urls items) = conclude (parsed d) (Raise e).
Proof.
  intros Hin Hl Hc.
  apply process_request_called in Hin as (d & h' & -> & He & Hp & Hm & Hf).
  exists d. split; [reflexivity|]. split; [now symmetry|].
  rewrite (process_request_call urls d args kwargs h' He Hp); [|now rewrite <- Hm].
  simpl in Hf. rewrite Hl in Hf. inversion Hf; subst h'.
  now rewrite Hc.
Qed.

(** The response to a request whose handler raised an exception that
    derives from [Exception] and is not a [SimpleJsonRpcError]. *)
Lemma process_request_wraps `{Runtime} (urls : list (string * handler))
  (items : value) (name : string) (args : list value) (kwargs : dict)
  (h : handler) (cls msg : string) :
  In (EvCall (VStr name) args kwargs) (fst (process_request urls items)) ->
  lookup name urls = Some h ->
  h_call h args kwargs = Raise (PyException cls msg) ->
  exists d,
    items = VDict d
    /\ snd (process_request urls items) =
         Ok (error_response (dict_get "version" d) (dict_get "id" d) (VStr name)
               (-32603) (format_exc (PyException cls msg))).
Proof.
  intros Hin Hl Hc.
  destruct (process_request_raised urls items name args kwargs h _ Hin Hl Hc)
    as (d & -> & Hm & Hr).
  exists d. split; [reflexivity|].
  rewrite Hr. simpl. unfold finish, assemble, parsed. simpl. now rewrite Hm.
Qed.

(** C8, amended: an exception raised by the handler that derives from
    [Exception] and is not a [SimpleJsonRpcError] is wrapped into an error
    with code -32603 whose message is the formatted traceback, and the
    result stays null.  When no registered handler raises an exception
    outside the [Exception] hierarchy, [process_request] returns a response
    for every request; an exception outside that hierarchy leaves
    [process_request]. *)
Theorem handler_exceptions_are_wrapped `{Runtime}
  (urls : list (string * handler)) (items : value) :
  (raises_only_exceptions urls ->
   exists r, snd (process_request urls items) = Ok r)
  /\ (forall name args kwargs h cls msg,
        In (EvCall (VStr name) args kwargs) (fst (process_request urls items)) ->
        lookup name urls = Some h ->
        h_call h args kwargs = Raise (PyException cls msg) ->
        exists r,
          snd (process_request urls items) = Ok r
          /\ field "error" r =
               Some (VDict [("code", VInt (-32603));
                            ("message", VStr (format_exc (PyException cls msg)))])
          /\ field "result" r = Some VNone)
  /\ (forall name args kwargs h cls msg,
        In (EvCall (VStr name) args kwargs) (fst (process_request urls items)) ->
        lookup name urls = Some h ->
        h_call h args kwargs = Raise (PyBaseException cls msg) ->
        snd (process_request urls items) = Raise (PyBaseException cls msg)).
Proof.
  split; [|split].
  - intros Hsafe.
    destruct (process_request_returns urls items Hsafe) as (tr & r & Hr).
    exists r. now rewrite Hr.
  - intros name args kwargs h cls msg Hin Hl Hc.
    destruct (process_request_wraps urls items name args kwargs h cls msg Hin Hl Hc)
      as (d & _ & Hw).
    rewrite Hw. eexists. split; [reflexivity|]. split; reflexivity.
  - intros name args kwargs h cls msg Hin Hl Hc.
    destruct (process_request_raised urls items name args kwargs h _ Hin Hl Hc)
      as (d & _ & _ & Hr).
    now rewrite Hr.
Qed.

(** The handlers of the sample server stay inside the [Exception]
    hierarchy. *)
Lemma sample_server_raises_only_exceptions :
  raises_only_exceptions (urls sample_server).
Proof.
  intros name h args kwargs cls msg Hl.
  cbn in Hl.
  repeat match type of Hl with
         | (if ?b then _ else _) = _ => destruct b
         end;
    try discriminate; inversion Hl; subst h; simpl.
  - unfold ping. destruct (find _ kwargs) as [[k v]|]; [discriminate|].
    destruct (lookup "kwargs" kwargs); discriminate.
  - repeat match goal with
           | |- match ?x with _ => _ end <> _ => destruct x
           end; discriminate.
  - destruct kwargs; discriminate.
Qed.

Lemma handler_exceptions_are_wrapped_witness :
  (exists r,
     snd (@process_request plain_runtime (urls sample_server)
            (rpc_request (Some (VList [VInt 1])) (VStr "fail") (VStr "2.0")
               (VStr "9")))
     = Ok r)
  /\ (exists r,
        snd (@process_request plain_runtime (urls sample_server)
               (rpc_request (Some (VList [VInt 1])) (VStr "fail") (VStr "2.0")
                  (VStr "9")))
        = Ok r
        /\ field "error" r =
             Some (VDict [("code", VInt (-32603));
                          ("message",
                           VStr (@format_exc plain_runtime
                                   (PyException "ValueError" "boom")))])
        /\ field "result" r = Some VNone).
Proof.
  pose proof (@handler_exceptions_are_wrapped plain_runtime (urls sample_server)
                (rpc_request (Some (VList [VInt 1])) (VStr "fail") (VStr "2.0")
                   (VStr "9"))) as (Hreturns & Hwraps & _).
  split.
  - exact (Hreturns sample_server_raises_only_exceptions).
  - apply (Hwraps "fail" [VInt 1] [] fail_handler "ValueError" "boom").
    + cbn. right. left. reflexivity.
    + reflexivity.
    + reflexivity.
Defined.

(** C8 as stated fails: [SystemExit] does not derive from [Exception], so
    a handler that calls [sys.exit] makes [process_request] raise instead
    of returning a response. *)
Lemma system_exit_leaves_process_request :
  @process_request plain_runtime (urls quitting_server)
    (rpc_request (Some (VList [VInt 0])) (VStr "quit") (VStr "2.0") (VStr "1"))
  = ([EvLookup (VStr "quit"); EvCall (VStr "quit") [VInt 0] []],
     Raise (PyBaseException "SystemExit" "0")).
Proof.
  reflexivity.
Qed.

(** ** Batches *)

Lemma process_batch_returns `{Runtime} (urls : list (string * handler))
  (items : list value) :
  raises_only_exceptions urls ->
  exists rs,
    process_batch urls items =
      (flat_map (fun item => fst (process_request urls item)) items, Ok rs)
    /\ Forall2 (fun item r => snd (process_request urls item) = Ok r) items rs.
Proof.
  intros Hsafe.
  induction items as [|item rest IH]; simpl.
  - exists []. split; [reflexivity|constructor].
  - destruct (process_request_returns urls item Hsafe) as (t1 & r & Hr).
    destruct IH as (rs & Hrs & Hall).
    exists (r :: rs). rewrite Hr, Hrs. simpl. split; [reflexivity|].
    constructor; [now rewrite Hr|exact Hall].
Qed.

Lemma Forall2_nth_error {A B : Type} (P : A -> B -> Prop) (l : list A) (l' : list B) :
  Forall2 P l l' ->
  forall i a, nth_error l i = Some a -> exists b, nth_error l' i = Some b /\ P a b.
Proof.
  induction 1 as [|x y l l' Hxy _ IH]; intros [|i] a Hn; simpl in *;
    try discriminate.
  - inversion Hn; subst. eauto.
  - eauto.
Qed.

(** A POST request with a JSON content type and a body that decodes. *)
Lemma prepare_request_post `{Runtime} (srv : SimpleJsonRpcServer) (rq : http_request)
  (ct : string) (items : value) :
  req_method rq <> "GET" ->
  req_content_type rq = Some ct ->
  str_in "application/json" ct = true ->
  req_data rq <> "" ->
  json_loads (req_data rq) = Ok items ->
  prepare_request srv rq =
    match dispatch (urls srv) items with
    | (t, Raise e) => (t, Raise e)
    | (t, Ok result) =>
        if is_response result then (t, Ok result)
        else
          match json_dumps result with
          | Ok body => (t, Ok (VResponse body "application/json"))
          | Raise e => (t, Raise e)
          end
    end.
Proof.
  intros Hm Hct Hjson Hdata Hloads. unfold prepare_request.
  destruct (String.eqb_spec (req_method rq) "GET") as [Heq|_]; [contradiction|].
  rewrite Hct, Hjson. simpl.
  destruct (String.eqb_spec (req_data rq) "") as [Heq|_]; [contradiction|].
  now rewrite Hloads.
Qed.

(** C7, amended: when no registered handler raises an exception outside
    the [Exception] hierarchy, a batch of N items is dispatched item by
    item in the order of the array (the trace of the batch is the traces
    of the items, one after the other), and the list built holds exactly N
    responses in that order, each the response [process_request] gives for
    that item alone.  An item whose handler raises an exception that is
    not a [SimpleJsonRpcError] gets the response with code -32603 at its
    own position.  The adapter answers with what [json.dumps] makes of
    that list. *)
Theorem batch_keeps_order_and_isolates_failures `{Runtime}
  (srv : SimpleJsonRpcServer) (rq : http_request) (ct : string) (items : list value) :
  raises_only_exceptions (urls srv) ->
  req_method rq <> "GET" ->
  req_content_type rq = Some ct ->
  str_in "application/json" ct = true ->
  req_data rq <> "" ->
  json_loads (req_data rq) = Ok (VList items) ->
  exists rs,
    dispatch (urls srv) (VList items) =
      (flat_map (fun item => fst (process_request (urls srv) item)) items,
       Ok (VList rs))
    /\ prepare_request srv rq =
         (flat_map (fun item => fst (process_request (urls srv) item)) items,
          match json_dumps (VList rs) with
          | Ok body => Ok (VResponse body "application/json")
          | Raise e => Raise e
          end)
    /\ List.length rs = List.length items
    /\ (forall i item,
          nth_error items i = Some item ->
          exists r, nth_error rs i = Some r
                    /\ snd (process_request (urls srv) item) = Ok r)
    /\ (forall i item name args kwargs h cls msg,
          nth_error items i = Some item ->
          In (EvCall (VStr name) args kwargs)
             (fst (process_request (urls srv) item)) ->
          lookup name (urls srv) = Some h ->
          h_call h args kwargs = Raise (PyException cls msg) ->
          exists r, nth_error rs i = Some r
                    /\ error_code r = Some (VInt (-32603))).
Proof.
  intros Hsafe Hm Hct Hjson Hdata Hloads.
  destruct (process_batch_returns (urls srv) items Hsafe) as (rs & Hrs & Hall).
  assert (Hd : dispatch (urls srv) (VList items) =
               (flat_map (fun item => fst (process_request (urls srv) item)) items,
                Ok (VList rs))).
  { unfold dispatch. now rewrite Hrs. }
  exists rs.
  split; [exact Hd|].
  split.
  { rewrite (prepare_request_post srv rq ct (VList items) Hm Hct Hjson Hdata Hloads).
    rewrite Hd. simpl. destruct (json_dumps (VList rs)); reflexivity. }
  split; [symmetry; exact (Forall2_length Hall)|].
  split.
  - intros i item Hi. exact (Forall2_nth_error _ _ _ Hall i item Hi).
  - intros i item name args kwargs h cls msg Hi Hin Hl Hc.
    destruct (Forall2_nth_error _ _ _ Hall i item Hi) as (r & Hr & Hitem).
    exists r. split; [exact Hr|].
    destruct (process_request_wraps (urls srv) item name args kwargs h cls msg
                Hin Hl Hc) as (d & _ & Hw).
    rewrite Hitem in Hw. inversion Hw. reflexivity.
Qed.

Lemma batch_keeps_order_and_isolates_failures_witness :
  exists rs,
    @dispatch (decoding_runtime sample_batch) (urls sample_server) sample_batch
    = ([EvLookup (VStr "add"); EvCall (VStr "add") [VInt 1; VInt 2] [];
        EvLookup (VStr "fail"); EvCall (VStr "fail") [VInt 1] [];
        EvLookup (VStr "add"); EvCall (VStr "add") [VInt 3; VInt 4] []],
       Ok (VList rs))
    /\ List.length rs = 3%nat
    /\ exists r, nth_error rs 1 = Some r /\ error_code r = Some (VInt (-32603)).
Proof.
  destruct (@batch_keeps_order_and_isolates_failures (decoding_runtime sample_batch)
              sample_server (post "[...]") "application/json"
              [rpc_request (Some (VList [VInt 1; VInt 2])) (VStr "add") (VStr "2.0")
                 (VStr "a");
               rpc_request (Some (VList [VInt 1])) (VStr "fail") (VStr "2.0")
                 (VStr "b");
               rpc_request (Some (VList [VInt 3; VInt 4])) (VStr "add") (VStr "2.0")
                 (VStr "c")])
    as (rs & Hd & _ & Hlen & _ & Hfail).
  - exact sample_server_raises_only_exceptions.
  - discriminate.
  - reflexivity.
  - reflexivity.
  - discriminate.
  - reflexivity.
  - exists rs. split; [exact Hd|]. split; [exact Hlen|].
    apply (Hfail 1%nat
             (rpc_request (Some (VList [VInt 1])) (VStr "fail") (VStr "2.0")
                (VStr "b"))
             "fail" [VInt 1] [] fail_handler "ValueError" "boom").
    + reflexivity.
    + cbn. right. left. reflexivity.
    + reflexivity.
    + reflexivity.
Defined.

(** C7 as stated fails: the second item's handler calls [sys.exit]; the
    exception leaves the loop, the third item is never dispatched and no
    array of responses is produced. *)
Lemma system_exit_aborts_the_batch :
  @dispatch plain_runtime (urls quitting_server)
    (VList [rpc_request (Some (VList [VInt 1; VInt 2])) (VStr "add") (VStr "2.0")
              (VStr "a");
            rpc_request (Some (VList [VInt 0])) (VStr "quit") (VStr "2.0")
              (VStr "b");
            rpc_request (Some (VList [VInt 3; VInt 4])) (VStr "add") (VStr "2.0")
              (VStr "c")])
  = ([EvLookup (VStr "add"); EvCall (VStr "add") [VInt 1; VInt 2] [];
      EvLookup (VStr "quit"); EvCall (VStr "quit") [VInt 0] []],
     Raise (PyBaseException "SystemExit" "0")).
Proof.
  reflexivity.
Qed.

(** ** The registry and the discovery listing *)

Lemma keys_dict_set_in {A : Type} (k k' : string) (v : A) (d : list (string * A)) :
  In k' (keys (dict_set k v d)) <-> k' = k \/ In k' (keys d).
Proof.
  induction d as [|[k0 v0] rest IH]; simpl.
  - intuition.
  - destruct (String.eqb_spec k0 k) as [->|Hne]; simpl.
    + intuition.
    + rewrite IH. intuition.
Qed.

Lemma keys_dict_set_nodup {A : Type} (k : string) (v : A) (d : list (string * A)) :
  NoDup (keys d) -> NoDup (keys (dict_set k v d)).
Proof.
  induction d as [|[k0 v0] rest IH]; simpl; intros Hnd.
  - constructor; [intros []|constructor].
  - inversion Hnd as [|? ? Hnot Hrest]; subst.
    destruct (String.eqb_spec k0 k) as [->|Hne]; simpl.
    + constructor; assumption.
    + constructor; [|now apply IH].
      intros Hin. apply keys_dict_set_in in Hin as [Heq|Hin];
        [now apply Hne|now apply Hnot].
Qed.

(** Registration keeps the configuration, keeps the names distinct, and
    never removes [ping]. *)
Lemma registered_invariant (regs : list (string * handler)) (srv : SimpleJsonRpcServer) :
  NoDup (keys (urls srv)) ->
  In "ping" (keys (urls srv)) ->
  show_api (registered regs srv) = show_api srv
  /\ NoDup (keys (urls (registered regs srv)))
  /\ In "ping" (keys (urls (registered regs srv))).
Proof.
  revert srv. induction regs as [|[n f] rest IH]; intros srv Hnd Hping; simpl.
  - auto.
  - destruct (IH (register n f srv)) as (Hs & Hn & Hp); simpl.
    + now apply keys_dict_set_nodup.
    + apply keys_dict_set_in. now right.
    + auto.
Qed.

Lemma str_mul_dash (n : nat) :
  String.length (str_mul "-" n) = n
  /\ forall c, In c (list_ascii_of_string (str_mul "-" n)) -> c = "-"%char.
Proof.
  induction n as [|n [IHl IHc]]; simpl.
  - split; [reflexivity|intros c []].
  - split; [now rewrite IHl|].
    intros c [Hc|Hc]; [now symmetry|now apply IHc].
Qed.

Lemma lookup_dict_set {A : Type} (k n : string) (v : A) (d : list (string * A)) :
  lookup k (dict_set n v d) = if (n =? k)%string then Some v else lookup k d.
Proof.
  induction d as [|[k0 v0] rest IH]; simpl.
  - reflexivity.
  - destruct (String.eqb_spec k0 n) as [->|Hne]; simpl.
    + destruct (String.eqb_spec n k); reflexivity.
    + rewrite IH. destruct (String.eqb_spec k0 k) as [->|Hk]; [|reflexivity].
      destruct (String.eqb_spec n k) as [->|_]; [contradiction|reflexivity].
Qed.

Lemma lookup_app {A : Type} (k : string) (l l' : list (string * A)) :
  lookup k (l ++ l')%list =
    match lookup k l with
    | Some v => Some v
    | None => lookup k l'
    end.
Proof.
  induction l as [|[k0 v0] rest IH]; simpl; [reflexivity|].
  destruct (k0 =? k)%string; [reflexivity|exact IH].
Qed.

Lemma lookup_registered (regs : list (string * handler))
  (srv : SimpleJsonRpcServer) (name : string) :
  lookup name (urls (registered regs srv)) =
    match lookup name (rev regs) with
    | Some f => Some f
    | None => lookup name (urls srv)
    end.
Proof.
  revert srv. induction regs as [|[n f] rest IH]; intros srv; simpl.
  - reflexivity.
  - unfold registered in *. simpl. rewrite IH, lookup_app. simpl.
    rewrite lookup_dict_set.
    destruct (lookup name (rev rest)); [reflexivity|].
    destruct (n =? name)%string; reflexivity.
Qed.

(** The names of the registry after a sequence of registrations: those it
    had, and those registered. *)
Lemma keys_registered (regs : list (string * handler)) (srv : SimpleJsonRpcServer)
  (name : string) :
  In name (keys (urls (registered regs srv)))
  <-> In name (keys (urls srv)) \/ In name (keys regs).
Proof.
  revert srv. induction regs as [|[n f] rest IH]; intros srv; simpl.
  - tauto.
  - unfold registered in *. simpl. rewrite IH. simpl.
    rewrite keys_dict_set_in. split.
    + intros [[->|Hin]|Hin]; auto.
    + intros [Hin|[->|Hin]]; auto.
Qed.

(** In a dictionary without repeated key, the pairs are what [lookup]
    finds. *)
Lemma in_lookup {A : Type} (d : list (string * A)) (k : string) (v : A) :
  NoDup (keys d) -> (In (k, v) d <-> lookup k d = Some v).
Proof.
  induction d as [|[k0 v0] rest IH]; simpl; intros Hnd.
  - split; [intros []|discriminate].
  - inversion Hnd as [|? ? Hnot Hrest]; subst.
    destruct (String.eqb_spec k0 k) as [->|Hne].
    + split.
      * intros [Heq|Hin]; [now inversion Heq|].
        exfalso. apply Hnot. unfold keys. apply in_map_iff.
        exists (k, v). split; [reflexivity|exact Hin].
      * intros Heq. inversion Heq. now left.
    + rewrite <- (IH Hrest). split.
      * intros [Heq|Hin]; [inversion Heq; contradiction|exact Hin].
      * intros Hin. now right.
Qed.

(** C10: a GET request is answered without any dispatch.  When
    [show_api] is off the body is empty.  When it is on, the body is the
    entries of the registry joined by a blank line.  The registry holds
    one entry per name, the names being [ping] and every name that was
    registered, each once; the handler listed under a name is the one
    registered last under it, or the built-in [ping].  An entry is the
    name followed by the handler's signature, a line of dashes of the same
    length, and the stripped docstring (or [No docstring]). *)
Theorem discovery_lists_registered_methods `{Runtime}
  (regs : list (string * handler)) (url : string) (show : bool) (rq : http_request) :
  req_method rq = "GET" ->
  (show = false ->
   prepare_request (registered regs (new_server url show)) rq =
     ([], Ok (VResponse "" "text/plain")))
  /\ (show = true ->
      exists entries,
        prepare_request (registered regs (new_server url show)) rq =
          ([], Ok (VResponse
                     (String.concat (newline ++ newline) (map describe entries))
                     "text/plain; charset=utf-8"))
        /\ NoDup (keys entries)
        /\ (forall name,
              In name (keys entries) <-> name = "ping" \/ In name (keys regs))
        /\ (forall name h,
              In (name, h) entries <->
              match lookup name (rev regs) with
              | Some f => Some f
              | None => lookup name init_urls
              end = Some h))
  /\ (forall name h,
        exists underline,
          describe (name, h) =
            (name ++ h_signature h) ++ newline ++ underline ++ newline
            ++ match h_doc h with Some text => strip text | None => "No docstring" end
          /\ String.length underline = String.length (name ++ h_signature h)
          /\ forall c, In c (list_ascii_of_string underline) -> c = "-"%char).
Proof.
  intros Hget.
  destruct (registered_invariant regs (new_server url show)) as (Hs & Hn & Hp).
  { simpl. constructor; [intros []|constructor]. }
  { simpl. now left. }
  simpl in Hs.
  split; [|split].
  - intros ->. unfold prepare_request, return_jrpc_methods_list.
    now rewrite Hget, Hs.
  - intros ->. exists (urls (registered regs (new_server url true))).
    split; [|split; [exact Hn|split]].
    + unfold prepare_request, return_jrpc_methods_list. now rewrite Hget, Hs.
    + intros name. rewrite keys_registered. simpl.
      split; [intros [[<-|[]]|Hin]; auto|intros [->|Hin]; auto].
    + intros name h. rewrite (in_lookup _ name h Hn).
      now rewrite lookup_registered.
  - intros name h. exists (str_mul "-" (String.length (name ++ h_signature h))).
    split; [reflexivity|]. apply str_mul_dash.
Qed.

Lemma discovery_lists_registered_methods_witness :
  (exists entries,
     @prepare_request plain_runtime
       (registered [("add", fail_handler); ("fail", fail_handler);
                    ("add", add_handler)]
          (new_server "/json-rpc/" true))
       {| req_method := "GET"; req_content_type := None; req_data := "" |}
     = ([], Ok (VResponse
                  (String.concat (newline ++ newline) (map describe entries))
                  "text/plain; charset=utf-8"))
     /\ In ("ping", ping_handler) entries
     /\ In ("add", add_handler) entries
     /\ In ("fail", fail_handler) entries
     /\ List.length entries = 3%nat)
  /\ @prepare_request plain_runtime
       (registered [("add", fail_handler); ("fail", fail_handler);
                    ("add", add_handler)]
          (new_server "/json-rpc/" true))
       {| req_method := "GET"; req_content_type := None; req_data := "" |}
     = ([], Ok (VResponse
                  ("ping(*args, kwargs)" ++ newline
                   ++ "-------------------" ++ newline
                   ++ "No docstring" ++ newline ++ newline
                   ++ "add(a, b)" ++ newline
                   ++ "---------" ++ newline
                   ++ "Adds two numbers." ++ newline ++ newline
                   ++ "fail(*args)" ++ newline
                   ++ "-----------" ++ newline
                   ++ "No docstring")
                  "text/plain; charset=utf-8")).
Proof.
  split; [|reflexivity].
  destruct (proj1 (proj2 (@discovery_lists_registered_methods plain_runtime
                            [("add", fail_handler); ("fail", fail_handler);
                             ("add", add_handler)]
                            "/json-rpc/" true
                            {| req_method := "GET"; req_content_type := None;
                               req_data := "" |}
                            eq_refl)) eq_refl)
    as (entries & Hbody & Hnd & Hkeys & Hentries).
  exists entries. split; [exact Hbody|].
  split; [now apply Hentries|]. split; [now apply Hentries|].
  split; [now apply Hentries|].
  assert (Hperm : forall name, In name (keys entries) <-> In name ["ping"; "add"; "fail"]).
  { intros name. rewrite Hkeys. simpl. intuition (subst; auto 10). }
  assert (Hlen : List.length (keys entries) = 3%nat).
  { apply Nat.le_antisymm.
    - apply (NoDup_incl_length Hnd (l' := ["ping"; "add"; "fail"])).
      intros name. apply Hperm.
    - apply (@NoDup_incl_length _ ["ping"; "add"; "fail"] (keys entries)).
      + repeat constructor; simpl; intuition discriminate.
      + intros name. apply Hperm. }
  unfold keys in Hlen. now rewrite length_map in Hlen.
Defined.

(** ** The built-in [ping] *)

(** C3, on the code: [ping] is in the registry of every new server, but
    calling it with no positional and no keyword argument raises
    [TypeError] and returns nothing; it returns ['pong'] when it is given
    the keyword [kwargs], whatever the positional arguments. *)
Theorem ping_requires_keyword_kwargs (url : string) (show : bool) :
  lookup "ping" (urls (new_server url show)) = Some ping_handler
  /\ (exists msg, h_call ping_handler [] [] = Raise (PyException "TypeError" msg))
  /\ (forall args v, h_call ping_handler args [("kwargs", v)] = Ok (VStr "pong")).
Proof.
  split; [reflexivity|]. split; [|reflexivity].
  eexists. reflexivity.
Qed.

(** ** The client *)

(** C2, on the code: the client that attribute access returns has no
    method name at all (the name composed so far is stored inside its
    [service_url]); [send_request] with the positional arguments 1 and 2
    raises [AttributeError], as it does with the keyword argument x=1; and
    calling the client itself raises [TypeError]. *)
Theorem getattr_chain_loses_method_name `{Runtime}
  (c : Client.SimpleJsonRpcClient) (a b request_id : string) :
  Client.service_name (Client.getattr (Client.getattr c a) b) = VNone
  /\ field "service_name"
       (Client.service_url (Client.getattr (Client.getattr c a) b)) = Some (VStr b)
  /\ Client.send_request_data (Client.getattr (Client.getattr c a) b)
       [VInt 1; VInt 2] [] request_id
     = Raise (PyException "AttributeError" "'int' object has no attribute 'decode'")
  /\ Client.send_request_data (Client.getattr c a) [] [("x", VInt 1)] request_id
     = Raise (PyException "AttributeError" "'str' object has no attribute 'decode'")
  /\ Client.call (Client.getattr (Client.getattr c a) b) [VInt 1; VInt 2] []
     = Raise (PyException "TypeError" "'SimpleJsonRpcClient' object is not callable").
Proof.
  repeat split.
Qed.

(** ** Further facts about the dispatch *)

(** A request that reaches its handler and whose handler returns a value
    other than a [Response] gets that value as [result], and no [error]. *)
Lemma successful_dispatch `{Runtime} (urls : list (string * handler)) (d : dict)
  (args : list value) (kwargs : dict) (name : string) (h : handler) (v : value) :
  expand_params (dict_get "params" d) = Ok (args, kwargs) ->
  present d args kwargs = true ->
  dict_get "method" d = VStr name ->
  lookup name urls = Some h ->
  h_call h args kwargs = Ok v ->
  is_response v = false ->
  process_request urls (VDict d) =
    ([EvLookup (VStr name); EvCall (VStr name) args kwargs],
     Ok (VDict [("protocol", dict_get "version" d);
                ("tid", dict_get "id" d);
                ("action", VNone);
                ("method", VStr name);
                ("result", v)])).
Proof.
  intros He Hp Hm Hl Hc Hv.
  rewrite (process_request_call urls d args kwargs h He Hp);
    [|rewrite Hm; simpl; now rewrite Hl].
  rewrite Hc, Hm. unfold finish. simpl. rewrite Hv.
  unfold assemble, parsed. simpl. now rewrite Hm.
Qed.

(** A [Response] returned by the handler is returned as it is. *)
Lemma response_passes_through `{Runtime} (urls : list (string * handler)) (d : dict)
  (args : list value) (kwargs : dict) (name : string) (h : handler)
  (body content_type : string) :
  expand_params (dict_get "params" d) = Ok (args, kwargs) ->
  present d args kwargs = true ->
  dict_get "method" d = VStr name ->
  lookup name urls = Some h ->
  h_call h args kwargs = Ok (VResponse body content_type) ->
  snd (process_request urls (VDict d)) = Ok (VResponse body content_type).
Proof.
  intros He Hp Hm Hl Hc.
  rewrite (process_request_call urls d args kwargs h He Hp);
    [|rewrite Hm; simpl; now rewrite Hl].
  now rewrite Hc.
Qed.

(** Inside a batch the same [Response] ends up in the list handed to
    [json.dumps], which raises: no response is produced for any item. *)
Lemma response_in_batch_is_not_serializable :
  let batch :=
    VList [rpc_request (Some (VList [VInt 1; VInt 2])) (VStr "add") (VStr "2.0")
             (VStr "a");
           rpc_request (Some (VList [VInt 1])) (VStr "page") (VStr "2.0")
             (VStr "b")] in
  snd (@prepare_request (decoding_runtime batch) raw_server (post "[...]"))
  = Raise (PyException "TypeError"
             "Object of type Response is not JSON serializable").
Proof.
  reflexivity.
Qed.

(** Last registration wins. *)
Lemma register_overwrites (name : string) (f : handler) (srv : SimpleJsonRpcServer) :
  lookup name (urls (register name f srv)) = Some f.
Proof.
  unfold register; simpl.
  induction (urls srv) as [|[k v] rest IH]; simpl.
  - now rewrite String.eqb_refl.
  - destruct (String.eqb_spec k name) as [->|Hne]; simpl.
    + now rewrite String.eqb_refl.
    + destruct (String.eqb_spec k name); [contradiction|exact IH].
Qed.

(** A payload that is not an object is answered with code -32603. *)
Lemma non_object_request_is_internal_error `{Runtime}
  (urls : list (string * handler)) (items : value) :
  is_dict items = false ->
  process_request urls items =
    ([], Ok (error_response VNone VNone VNone (-32603)
               (format_exc
                  (PyException "AttributeError"
                     ("'" ++ type_name items ++ "' object has no attribute 'get'"))))).
Proof.
  intros Hd. unfold process_request.
  now rewrite (try_block_not_dict urls items Hd).
Qed.

(** ** Further facts about the client *)

(** [send_request] builds a payload from positional [bytes] arguments. *)
Lemma send_request_data_bytes `{Runtime} (c : Client.SimpleJsonRpcClient)
  (b : list Byte.byte) (text request_id : string) :
  utf8_decode b = Ok text ->
  Client.send_request_data c [VBytes b] [] request_id =
    Ok (VDict [("version", Client.version c);
               ("method", Client.service_name c);
               ("params", VList [VStr text]);
               ("id", VStr request_id)]).
Proof.
  intros Hb. unfold Client.send_request_data. simpl. now rewrite Hb.
Qed.

(** With any keyword argument the keys are what gets decoded, and a [str]
    has no [decode]. *)
Lemma send_request_data_kwargs `{Runtime} (c : Client.SimpleJsonRpcClient)
  (args : list value) (k : string) (v : value) (rest : dict) (request_id : string) :
  Client.send_request_data c args ((k, v) :: rest) request_id =
    Raise (PyException "AttributeError" "'str' object has no attribute 'decode'").
Proof.
  reflexivity.
Qed.

(** * Further properties of the code *)

(** ** Successful calls and errors raised by the handler *)

Lemma present_true (d : dict) (args : list value) (kwargs : dict) :
  truthy (py_or (VList args) (VDict kwargs)) = true ->
  truthy (dict_get "method" d) = true ->
  truthy (dict_get "version" d) = true ->
  truthy (dict_get "id" d) = true ->
  present d args kwargs = true.
Proof.
  intros Hp Hm Hv Hid. unfold present, py_all. cbn [forallb].
  now rewrite Hp, Hm, Hv, Hid.
Qed.



(** X2: a [SimpleJsonRpcError] raised by the handler is reported as it
    is: the response carries the error's own code and message, a null
    result, and the request's protocol, id and method. *)
Theorem protocol_error_of_handler_is_reported `{Runtime}
  (urls : list (string * handler)) (d : dict) (args : list value) (kwargs : dict)
  (name : string) (h : handler) (message code : value) :
  expand_params (dict_get "params" d) = Ok (args, kwargs) ->
  present d args kwargs = true ->
  dict_get "method" d = VStr name ->
  lookup name urls = Some h ->
  h_call h args kwargs = Raise (SimpleJsonRpcError message code) ->
  process_request urls (VDict d) =
    ([EvLookup (VStr name); EvCall (VStr name) args kwargs],
     Ok (VDict [("protocol", dict_get "version" d);
                ("tid", dict_get "id" d);
                ("action", VNone);
                ("method", VStr name);
                ("result", VNone);
                ("error", VDict [("code", code); ("message", message)])])).
Proof.
  intros He Hp Hm Hl Hc.
  rewrite (process_request_call urls d args kwargs h He Hp);
    [|rewrite Hm; simpl; now rewrite Hl].
  rewrite Hc, Hm. simpl. unfold finish, assemble, parsed. simpl. now rewrite Hm.
Qed.

Lemma protocol_error_of_handler_is_reported_witness :
  @process_request plain_runtime (urls denying_server)
    (rpc_request (Some (VDict [("user", VStr "x")])) (VStr "deny") (VStr "2.0")
       (VStr "5"))
  = ([EvLookup (VStr "deny"); EvCall (VStr "deny") [] [("user", VStr "x")]],
     Ok (VDict [("protocol", VStr "2.0");
                ("tid", VStr "5");
                ("action", VNone);
                ("method", VStr "deny");
                ("result", VNone);
                ("error", VDict [("code", VInt 403); ("message", VStr "denied")])])).
Proof.
  exact (@protocol_error_of_handler_is_reported plain_runtime (urls denying_server)
           [("params", VDict [("user", VStr "x")]); ("method", VStr "deny");
            ("version", VStr "2.0"); ("id", VStr "5")]
           [] [("user", VStr "x")] "deny" deny_handler (VStr "denied") (VInt 403)
           eq_refl eq_refl eq_refl eq_refl eq_refl).
Defined.

(** X17: the built-in [ping] as a client reaches it.  With an array as
    [params] the call raises [TypeError] and the response carries -32603;
    with the object that holds the one key [kwargs] the result is
    ['pong']. *)
Theorem ping_over_the_wire `{Runtime}
  (urls : list (string * handler)) (d : dict) :
  lookup "ping" urls = Some ping_handler ->
  dict_get "method" d = VStr "ping" ->
  truthy (dict_get "version" d) = true ->
  truthy (dict_get "id" d) = true ->
  (forall l, dict_get "params" d = VList l -> l <> [] ->
     exists msg,
       process_request urls (VDict d) =
         ([EvLookup (VStr "ping"); EvCall (VStr "ping") l []],
          Ok (error_response (dict_get "version" d) (dict_get "id" d) (VStr "ping")
                (-32603) (format_exc (PyException "TypeError" msg)))))
  /\ (forall v, dict_get "params" d = VDict [("kwargs", v)] ->
        process_request urls (VDict d) =
          ([EvLookup (VStr "ping"); EvCall (VStr "ping") [] [("kwargs", v)]],
           Ok (VDict [("protocol", dict_get "version" d);
                      ("tid", dict_get "id" d);
                      ("action", VNone);
                      ("method", VStr "ping");
                      ("result", VStr "pong")]))).
Proof.
  intros Hl Hm Hv Hid. split.
  - intros l Hp Hne. eexists.
    rewrite (process_request_call urls d l [] ping_handler).
    + rewrite Hm. simpl. unfold finish, assemble, parsed. simpl.
      rewrite Hm. reflexivity.
    + rewrite Hp. destruct l; [contradiction|reflexivity].
    + apply present_true; auto; [|now rewrite Hm].
      destruct l; [contradiction|reflexivity].
    + rewrite Hm. simpl. now rewrite Hl.
  - intros v Hp.
    apply (successful_dispatch urls d [] [("kwargs", v)] "ping" ping_handler);
      auto.
    + now rewrite Hp.
    + apply present_true; auto; now rewrite Hm.
Qed.

Lemma ping_over_the_wire_witness :
  @process_request plain_runtime init_urls
    (rpc_request (Some (VDict [("kwargs", VInt 1)])) (VStr "ping") (VStr "2.0")
       (VStr "1"))
  = ([EvLookup (VStr "ping"); EvCall (VStr "ping") [] [("kwargs", VInt 1)]],
     Ok (VDict [("protocol", VStr "2.0");
                ("tid", VStr "1");
                ("action", VNone);
                ("method", VStr "ping");
                ("result", VStr "pong")])).
Proof.
  exact (proj2 (@ping_over_the_wire plain_runtime init_urls
                  [("params", VDict [("kwargs", VInt 1)]); ("method", VStr "ping");
                   ("version", VStr "2.0"); ("id", VStr "1")]
                  eq_refl eq_refl eq_refl eq_refl)
           (VInt 1) eq_refl).
Defined.

(** ** Malformed payloads *)

Lemma process_batch_ok `{Runtime} (urls : list (string * handler))
  (items : list value) (t : list event) (rs : list value) :
  process_batch urls items = (t, Ok rs) ->
  Forall2 (fun item r => snd (process_request urls item) = Ok r) items rs.
Proof.
  revert t rs. induction items as [|item rest IH]; simpl; intros t rs Hb.
  - inversion Hb. constructor.
  - destruct (process_request urls item) as [t1 [r|e]] eqn:Hr; [|discriminate].
    destruct (process_batch urls rest) as [t2 [rs'|e]] eqn:Hrest; [|discriminate].
    inversion Hb; subst. constructor; [now rewrite Hr|].
    exact (IH t2 rs' eq_refl).
Qed.

Lemma process_batch_not_objects `{Runtime} (urls : list (string * handler))
  (items : list value) :
  Forall (fun item => is_dict item = false) items ->
  process_batch urls items = ([], Ok (map not_an_object_response items)).
Proof.
  induction 1 as [|item rest Hitem _ IH]; simpl; [reflexivity|].
  now rewrite (non_object_request_is_internal_error urls item Hitem), IH.
Qed.

(** X7: a payload that is neither an object nor an array (a number, a
    string, [null]) is answered with one response that carries -32603, the
    traceback of the [AttributeError] as message, and a null protocol, tid
    and method; no handler is looked up.  An element of a batch that is
    not an object, a nested array included, is dispatched like any other
    item and gets that same response: whenever the batch is answered (no
    exception of a sibling leaves the loop), that response stands at the
    element's position, whatever the other elements are. *)
Theorem payload_that_is_not_an_object `{Runtime}
  (urls : list (string * handler)) :
  (forall items,
     is_dict items = false -> is_list items = false ->
     dispatch urls items = ([], Ok (not_an_object_response items)))
  /\ (forall item,
        is_dict item = false ->
        process_request urls item = ([], Ok (not_an_object_response item)))
  /\ (forall items t rs i item,
        dispatch urls (VList items) = (t, Ok (VList rs)) ->
        nth_error items i = Some item ->
        is_dict item = false ->
        nth_error rs i = Some (not_an_object_response item)).
Proof.
  split; [|split].
  - intros items Hd Hl.
    destruct items; simpl in *; try discriminate;
      apply non_object_request_is_internal_error; reflexivity.
  - intros item Hd. now apply non_object_request_is_internal_error.
  - intros items t rs i item Hb Hi Hd. unfold dispatch in Hb.
    destruct (process_batch urls items) as [t' [rs'|e]] eqn:Hpb; [|discriminate].
    inversion Hb; subst.
    pose proof (process_batch_ok urls items t rs Hpb) as Hall.
    destruct (Forall2_nth_error _ _ _ Hall i item Hi) as (r & Hr & Hitem).
    rewrite (non_object_request_is_internal_error urls item Hd) in Hitem.
    inversion Hitem. now subst.
Qed.

Lemma payload_that_is_not_an_object_witness :
  @dispatch plain_runtime init_urls (VInt 5)
  = ([], Ok (@not_an_object_response plain_runtime (VInt 5)))
  /\ nth_error
       [VDict [("protocol", VStr "2.0"); ("tid", VStr "a"); ("action", VNone);
               ("method", VStr "add"); ("result", VInt 3)];
        @not_an_object_response plain_runtime (VList []);
        @not_an_object_response plain_runtime (VStr "x")] 1
     = Some (@not_an_object_response plain_runtime (VList [])).
Proof.
  split.
  - exact (proj1 (@payload_that_is_not_an_object plain_runtime init_urls)
             (VInt 5) eq_refl eq_refl).
  - exact (proj2 (proj2 (@payload_that_is_not_an_object plain_runtime
                           (urls sample_server)))
             [rpc_request (Some (VList [VInt 1; VInt 2])) (VStr "add") (VStr "2.0")
                (VStr "a");
              VList []; VStr "x"]
             _ _ 1%nat (VList []) eq_refl eq_refl eq_refl).
Defined.

(** X8: a request that passes validation and whose [method] is an array
    or an object is answered with -32603, not -32601: the membership test
    on the registry raises [TypeError] (unhashable type), which the
    catch-all clause wraps.  No handler is called. *)
Theorem unhashable_method_name_is_internal_error `{Runtime}
  (urls : list (string * handler)) (d : dict) (args : list value) (kwargs : dict) :
  expand_params (dict_get "params" d) = Ok (args, kwargs) ->
  present d args kwargs = true ->
  is_list (dict_get "method" d) || is_dict (dict_get "method" d) = true ->
  process_request urls (VDict d) =
    ([EvLookup (dict_get "method" d)],
     Ok (error_response (dict_get "version" d) (dict_get "id" d)
           (dict_get "method" d) (-32603)
           (format_exc
              (PyException "TypeError"
                 ("unhashable type: '" ++ type_name (dict_get "method" d) ++ "'"))))).
Proof.
  intros He Hp Hm. unfold process_request.
  rewrite try_block_dict, He, Hp. simpl.
  destruct (dict_get "method" d) eqn:Hmd; simpl in Hm; try discriminate;
    simpl; unfold finish, assemble, parsed; simpl; now rewrite Hmd.
Qed.

Lemma unhashable_method_name_is_internal_error_witness :
  response_code
    (@process_request plain_runtime init_urls
       (rpc_request (Some (VList [VInt 1])) (VList [VStr "ping"]) (VStr "2.0")
          (VStr "1")))
  = Some (VInt (-32603)).
Proof.
  cbv [rpc_request app].
  rewrite (@unhashable_method_name_is_internal_error plain_runtime init_urls
             [("params", VList [VInt 1]); ("method", VList [VStr "ping"]);
              ("version", VStr "2.0"); ("id", VStr "1")]
             [VInt 1] [] eq_refl eq_refl eq_refl).
  reflexivity.
Defined.

(** ** Invariants of [process_request] *)

(** X9: whatever the request, a value returned by [process_request] is
    either the [Response] object the handler returned, or a dictionary
    with exactly the keys protocol, tid, action, method and result, in
    that order, followed by error when an error occurred.  [action] is
    always null, and with an error the result is null. *)
Theorem response_shape `{Runtime}
  (urls : list (string * handler)) (items r : value) :
  snd (process_request urls items) = Ok r ->
  is_response r = true
  \/ (exists p t m v,
        r = VDict [("protocol", p); ("tid", t); ("action", VNone);
                   ("method", m); ("result", v)])
  \/ (exists p t m c msg,
        r = VDict [("protocol", p); ("tid", t); ("action", VNone);
                   ("method", m); ("result", VNone);
                   ("error", VDict [("code", c); ("message", msg)])]).
Proof.
  unfold process_request.
  destruct (is_dict items) eqn:Hd.
  - destruct items; try discriminate. rewrite try_block_dict.
    destruct (expand_params (dict_get "params" d)) as [[a k]|e] eqn:He.
    + destruct (present d a k); simpl.
      * destruct (urls_find urls (dict_get "method" d)) as [[h|]|e] eqn:Hf; simpl.
        -- destruct (h_call h a k) as [v|e]; simpl.
           ++ unfold finish. simpl.
              destruct (is_response v) eqn:Hv; intros Hr; inversion Hr; subst.
              ** now left.
              ** right. left. unfold assemble. simpl. repeat eexists.
           ++ destruct e; simpl; intros Hr; inversion Hr; subst;
                right; right; unfold finish, assemble; simpl; repeat eexists.
        -- intros Hr; inversion Hr; subst.
           right; right; unfold finish, assemble; simpl; repeat eexists.
        -- apply urls_find_raise in Hf as (cls & msg & ->). simpl.
           intros Hr; inversion Hr; subst.
           right; right; unfold finish, assemble; simpl; repeat eexists.
      * intros Hr; inversion Hr; subst.
        right; right; unfold finish, assemble; simpl; repeat eexists.
    + apply expand_params_raise in He as (_ & _ & _ & ->). simpl.
      intros Hr; inversion Hr; subst.
      right; right; unfold finish, assemble; simpl; repeat eexists.
  - rewrite (try_block_not_dict urls items Hd). simpl.
    intros Hr; inversion Hr; subst.
    right; right; unfold finish, assemble; simpl; repeat eexists.
Qed.

Lemma response_shape_witness :
  is_response
    (error_response (VStr "2.0") (VStr "7") (VStr "Ping") (-32601)
       ("JSON-RPC: Method " ++ dquote ++ "Ping" ++ dquote ++ " not found")) = true
  \/ (exists p t m v,
        error_response (VStr "2.0") (VStr "7") (VStr "Ping") (-32601)
          ("JSON-RPC: Method " ++ dquote ++ "Ping" ++ dquote ++ " not found")
        = VDict [("protocol", p); ("tid", t); ("action", VNone);
                 ("method", m); ("result", v)])
  \/ (exists p t m c msg,
        error_response (VStr "2.0") (VStr "7") (VStr "Ping") (-32601)
          ("JSON-RPC: Method " ++ dquote ++ "Ping" ++ dquote ++ " not found")
        = VDict [("protocol", p); ("tid", t); ("action", VNone);
                 ("method", m); ("result", VNone);
                 ("error", VDict [("code", c); ("message", msg)])]).
Proof.
  exact (@response_shape plain_runtime init_urls
           (rpc_request (Some (VList [VInt 1])) (VStr "Ping") (VStr "2.0") (VStr "7"))
           _ eq_refl).
Defined.

(** X10: a dispatch calls at most one handler, at most once: the trace
    holds at most one call.  The call is made under the method name of the
    request, with the arguments that normalizing its [params] gave.  A
    response without an error is only ever produced after the call. *)
Theorem handler_called_at_most_once `{Runtime}
  (urls : list (string * handler)) (items : value) :
  (List.length
     (filter (fun ev => match ev with EvCall _ _ _ => true | _ => false end)
        (fst (process_request urls items))) <= 1)%nat
  /\ (forall n a k,
        In (EvCall n a k) (fst (process_request urls items)) ->
        exists d, items = VDict d
                  /\ n = dict_get "method" d
                  /\ expand_params (dict_get "params" d) = Ok (a, k))
  /\ (forall r,
        snd (process_request urls items) = Ok r ->
        error_code r = None ->
        exists n a k, In (EvCall n a k) (fst (process_request urls items))).
Proof.
  split; [|split].
  - unfold process_request.
    destruct (is_dict items) eqn:Hd.
    + destruct items; try discriminate. rewrite try_block_dict.
      destruct (expand_params (dict_get "params" d)) as [[a k]|e]; simpl; auto.
      destruct (present d a k); simpl; auto.
      destruct (urls_find urls (dict_get "method" d)) as [[h|]|e]; simpl; auto.
      destruct (h_call h a k); simpl; auto.
    + rewrite (try_block_not_dict urls items Hd). simpl. auto.
  - intros n a k Hin.
    destruct (process_request_called urls items n a k Hin)
      as (d & h & -> & He & _ & Hn & _).
    exists d. auto.
  - unfold process_request.
    destruct (is_dict items) eqn:Hd.
    + destruct items; try discriminate. rewrite try_block_dict.
      destruct (expand_params (dict_get "params" d)) as [[a k]|e] eqn:He.
      * destruct (present d a k); simpl.
        -- destruct (urls_find urls (dict_get "method" d)) as [[h|]|e] eqn:Hf; simpl.
           ++ intros r _ _. exists (dict_get "method" d), a, k.
              destruct (h_call h a k); simpl; auto.
           ++ intros r Hr; inversion Hr; subst. discriminate.
           ++ apply urls_find_raise in Hf as (cls & msg & ->). simpl.
              intros r Hr; inversion Hr; subst. discriminate.
        -- intros r Hr; inversion Hr; subst. discriminate.
      * apply expand_params_raise in He as (_ & _ & _ & ->). simpl.
        intros r Hr; inversion Hr; subst. discriminate.
    + rewrite (try_block_not_dict urls items Hd). simpl.
      intros r Hr; inversion Hr; subst. discriminate.
Qed.

(** X11: when no handler was called, an error in the response carries one
    of the four codes -32600, -32601, -32602 and -32603. *)
Theorem error_codes_without_a_call `{Runtime}
  (urls : list (string * handler)) (items r c : value) :
  snd (process_request urls items) = Ok r ->
  error_code r = Some c ->
  (forall n a k, ~ In (EvCall n a k) (fst (process_request urls items))) ->
  In c dispatcher_codes.
Proof.
  unfold process_request, dispatcher_codes.
  destruct (is_dict items) eqn:Hd.
  - destruct items; try discriminate. rewrite try_block_dict.
    destruct (expand_params (dict_get "params" d)) as [[a k]|e] eqn:He.
    + destruct (present d a k); simpl.
      * destruct (urls_find urls (dict_get "method" d)) as [[h|]|e] eqn:Hf; simpl.
        -- intros _ _ Hno. exfalso.
           destruct (h_call h a k); simpl in Hno;
             apply (Hno (dict_get "method" d) a k); right; now left.
        -- intros Hr Hc _; inversion Hr; subst. inversion Hc. simpl. auto.
        -- apply urls_find_raise in Hf as (cls & msg & ->). simpl.
           intros Hr Hc _; inversion Hr; subst. inversion Hc. simpl. auto.
      * intros Hr Hc _; inversion Hr; subst. inversion Hc. simpl. auto.
    + apply expand_params_raise in He as (_ & _ & _ & ->). simpl.
      intros Hr Hc _; inversion Hr; subst. inversion Hc. simpl. auto.
  - rewrite (try_block_not_dict urls items Hd). simpl.
    intros Hr Hc _; inversion Hr; subst. inversion Hc. simpl. auto.
Qed.

Lemma error_codes_without_a_call_witness :
  In (VInt (-32600)) dispatcher_codes.
Proof.
  apply (@error_codes_without_a_call plain_runtime init_urls
           (rpc_request None (VStr "ping") (VStr "2.0") (VStr "1"))
           (error_response (VStr "2.0") (VStr "1") (VStr "ping") (-32600)
              ("JSON-RPC: Invalid request parameters:"
               ++ @py_str plain_runtime
                    (rpc_request None (VStr "ping") (VStr "2.0") (VStr "1"))))
           (VInt (-32600)) eq_refl eq_refl).
  intros n a k [].
Defined.

(** ** The transport adapter *)

Lemma substring_append (pre s post : string) :
  substring (String.length pre) (String.length s) (pre ++ s ++ post) = s.
Proof.
  induction pre as [|c pre IH]; simpl; [|exact IH].
  induction s as [|c s IHs]; simpl.
  - destruct post; reflexivity.
  - now rewrite IHs.
Qed.

(** A text that holds [s] somewhere passes the test [s in text]. *)
Lemma str_in_append (pre s post : string) :
  s <> "" -> str_in s (pre ++ s ++ post) = true.
Proof.
  intros Hs. unfold str_in.
  destruct (index 0 s (pre ++ s ++ post)) eqn:Hi; [reflexivity|].
  exfalso.
  apply (index_correct3 0 (String.length pre) s (pre ++ s ++ post) Hi Hs
           (Nat.le_0_l _)).
  apply substring_append.
Qed.

Lemma Forall2_in {A B : Type} (P : A -> B -> Prop) (l : list A) (l' : list B) :
  Forall2 P l l' ->
  forall a, In a l -> exists b, In b l' /\ P a b.
Proof.
  induction 1 as [|x y l l' Hxy _ IH]; intros a Hin; [destruct Hin|].
  destruct Hin as [->|Hin].
  - exists y. split; [now left|exact Hxy].
  - destruct (IH a Hin) as (b & Hb & Hab). exists b. split; [now right|exact Hab].
Qed.

Lemma unserializable_in_list (rs : list value) (r : value) :
  In r rs -> is_response r = true ->
  exists o, unserializable (VList rs) = Some o.
Proof.
  induction rs as [|x rest IH]; intros Hin Hr; [destruct Hin|].
  simpl. destruct (unserializable x) as [o|] eqn:Hx; [eauto|].
  destruct Hin as [->|Hin].
  - destruct r; simpl in *; discriminate.
  - destruct (IH Hin Hr) as (o & Ho). simpl in Ho. eauto.
Qed.

(** X3: a single request whose handler returns a [Response] object is
    answered with that very object: neither [process_request] nor
    [prepare_request] wraps or serializes it. *)
Theorem handler_response_is_sent_as_it_is `{Runtime}
  (srv : SimpleJsonRpcServer) (rq : http_request) (ct : string) (d : dict)
  (args : list value) (kwargs : dict) (name : string) (h : handler)
  (body content_type : string) :
  req_method rq <> "GET" ->
  req_content_type rq = Some ct ->
  str_in "application/json" ct = true ->
  req_data rq <> "" ->
  json_loads (req_data rq) = Ok (VDict d) ->
  expand_params (dict_get "params" d) = Ok (args, kwargs) ->
  present d args kwargs = true ->
  dict_get "method" d = VStr name ->
  lookup name (urls srv) = Some h ->
  h_call h args kwargs = Ok (VResponse body content_type) ->
  prepare_request srv rq =
    ([EvLookup (VStr name); EvCall (VStr name) args kwargs],
     Ok (VResponse body content_type)).
Proof.
  intros Hget Hct Hjson Hdata Hloads He Hp Hm Hl Hc.
  rewrite (prepare_request_post srv rq ct (VDict d) Hget Hct Hjson Hdata Hloads).
  unfold dispatch.
  rewrite (process_request_call (urls srv) d args kwargs h He Hp);
    [|rewrite Hm; simpl; now rewrite Hl].
  now rewrite Hc, Hm.
Qed.

Lemma handler_response_is_sent_as_it_is_witness :
  @prepare_request
    (decoding_runtime
       (rpc_request (Some (VList [VInt 1])) (VStr "page") (VStr "2.0") (VStr "b")))
    raw_server (post "{...}")
  = ([EvLookup (VStr "page"); EvCall (VStr "page") [VInt 1] []],
     Ok (VResponse "<html/>" "text/html")).
Proof.
  apply (@handler_response_is_sent_as_it_is
           (decoding_runtime
              (rpc_request (Some (VList [VInt 1])) (VStr "page") (VStr "2.0")
                 (VStr "b")))
           raw_server (post "{...}") "application/json"
           [("params", VList [VInt 1]); ("method", VStr "page");
            ("version", VStr "2.0"); ("id", VStr "b")]
           [VInt 1] [] "page" raw_handler "<html/>" "text/html");
    try reflexivity; discriminate.
Defined.

(** X4: a batch in which one item is answered by a [Response] object
    yields no response at all: the object ends up in the list handed to
    [json.dumps], and [prepare_request] raises. *)
Theorem response_inside_a_batch_fails_the_batch `{Runtime}
  (srv : SimpleJsonRpcServer) (rq : http_request) (ct : string)
  (items : list value) (item : value) (body content_type : string) :
  req_method rq <> "GET" ->
  req_content_type rq = Some ct ->
  str_in "application/json" ct = true ->
  req_data rq <> "" ->
  json_loads (req_data rq) = Ok (VList items) ->
  In item items ->
  snd (process_request (urls srv) item) = Ok (VResponse body content_type) ->
  exists e, snd (prepare_request srv rq) = Raise e.
Proof.
  intros Hget Hct Hjson Hdata Hloads Hin Hitem.
  rewrite (prepare_request_post srv rq ct (VList items) Hget Hct Hjson Hdata Hloads).
  unfold dispatch.
  destruct (process_batch (urls srv) items) as [t [rs|e]] eqn:Hb; [|simpl; eauto].
  simpl.
  pose proof (process_batch_ok (urls srv) items t rs Hb) as Hall.
  assert (Hr : In (VResponse body content_type) rs).
  { destruct (Forall2_in _ _ _ Hall item Hin) as (r & Hr & Hitem').
    rewrite Hitem in Hitem'. inversion Hitem'. now subst. }
  destruct (unserializable_in_list rs _ Hr eq_refl) as (o & Ho).
  unfold json_dumps. rewrite Ho. simpl. eauto.
Qed.

Lemma response_inside_a_batch_fails_the_batch_witness :
  exists e,
    snd (@prepare_request
           (decoding_runtime
              (VList [rpc_request (Some (VList [VInt 1; VInt 2])) (VStr "add")
                        (VStr "2.0") (VStr "a");
                      rpc_request (Some (VList [VInt 1])) (VStr "page")
                        (VStr "2.0") (VStr "b")]))
           raw_server (post "[...]"))
    = Raise e.
Proof.
  apply (@response_inside_a_batch_fails_the_batch
           (decoding_runtime
              (VList [rpc_request (Some (VList [VInt 1; VInt 2])) (VStr "add")
                        (VStr "2.0") (VStr "a");
                      rpc_request (Some (VList [VInt 1])) (VStr "page")
                        (VStr "2.0") (VStr "b")]))
           raw_server (post "[...]") "application/json"
           [rpc_request (Some (VList [VInt 1; VInt 2])) (VStr "add") (VStr "2.0")
              (VStr "a");
            rpc_request (Some (VList [VInt 1])) (VStr "page") (VStr "2.0")
              (VStr "b")]
           (rpc_request (Some (VList [VInt 1])) (VStr "page") (VStr "2.0") (VStr "b"))
           "<html/>" "text/html");
    try reflexivity; try discriminate.
  right. left. reflexivity.
Defined.

(** X12: a request that is not a GET, whose Content-Type holds
    [application/json] anywhere (a charset parameter may follow) and whose
    body decodes to a single value is handed to [process_request] once;
    a response that is not a [Response] object is serialized with
    [json.dumps] and sent with the content type [application/json]. *)
Theorem single_request_is_answered_in_json `{Runtime}
  (srv : SimpleJsonRpcServer) (rq : http_request) (pre post : string)
  (items r : value) (t : list event) :
  req_method rq <> "GET" ->
  req_content_type rq = Some (pre ++ "application/json" ++ post) ->
  req_data rq <> "" ->
  json_loads (req_data rq) = Ok items ->
  is_list items = false ->
  process_request (urls srv) items = (t, Ok r) ->
  is_response r = false ->
  prepare_request srv rq =
    (t, match json_dumps r with
        | Ok body => Ok (VResponse body "application/json")
        | Raise e => Raise e
        end).
Proof.
  intros Hget Hct Hdata Hloads Hl Hr Hresp.
  rewrite (prepare_request_post srv rq _ items Hget Hct
             (str_in_append pre "application/json" post ltac:(discriminate))
             Hdata Hloads).
  assert (Hd : dispatch (urls srv) items = (t, Ok r)).
  { destruct items; simpl in Hl; try discriminate; exact Hr. }
  rewrite Hd, Hresp. destruct (json_dumps r); reflexivity.
Qed.

Lemma single_request_is_answered_in_json_witness :
  @prepare_request
    (decoding_runtime
       (rpc_request (Some (VList [VInt 1; VInt 2])) (VStr "add") (VStr "2.0")
          (VStr "a")))
    sample_server
    {| req_method := "POST";
       req_content_type := Some "application/json; charset=utf-8";
       req_data := "{...}" |}
  = ([EvLookup (VStr "add"); EvCall (VStr "add") [VInt 1; VInt 2] []],
     Ok (VResponse "" "application/json")).
Proof.
  apply (@single_request_is_answered_in_json
           (decoding_runtime
              (rpc_request (Some (VList [VInt 1; VInt 2])) (VStr "add") (VStr "2.0")
                 (VStr "a")))
           sample_server
           {| req_method := "POST";
              req_content_type := Some "application/json; charset=utf-8";
              req_data := "{...}" |}
           "" "; charset=utf-8"
           (rpc_request (Some (VList [VInt 1; VInt 2])) (VStr "add") (VStr "2.0")
              (VStr "a"))
           (VDict [("protocol", VStr "2.0"); ("tid", VStr "a"); ("action", VNone);
                   ("method", VStr "add"); ("result", VInt 3)])
           [EvLookup (VStr "add"); EvCall (VStr "add") [VInt 1; VInt 2] []]);
    try reflexivity; discriminate.
Defined.

(** X13: [prepare_request] hands a payload to [process_request], so
    that a method name is looked up or a handler called, only for a
    request that is not a GET, declares a Content-Type that holds
    [application/json], has a non-empty body, and whose body decodes.  In
    every other case (the discovery listing, the 404 abort, a body that
    does not decode) no method is looked up by name and no handler is
    called. *)
Theorem nothing_is_dispatched_without_a_json_body `{Runtime}
  (srv : SimpleJsonRpcServer) (rq : http_request) :
  fst (prepare_request srv rq) <> [] ->
  req_method rq <> "GET"
  /\ (exists ct, req_content_type rq = Some ct
                 /\ str_in "application/json" ct = true)
  /\ req_data rq <> ""
  /\ exists items, json_loads (req_data rq) = Ok items.
Proof.
  unfold prepare_request.
  destruct (String.eqb_spec (req_method rq) "GET") as [Hg|Hg];
    [intros Hn; now contradiction Hn|].
  destruct (req_content_type rq) as [ct|]; simpl.
  - destruct (str_in "application/json" ct) eqn:Hct; simpl;
      [|intros Hn; now contradiction Hn].
    destruct (String.eqb_spec (req_data rq) "") as [Hd|Hd];
      [intros Hn; now contradiction Hn|].
    destruct (json_loads (req_data rq)) as [items|e];
      [|intros Hn; now contradiction Hn].
    intros _. repeat split; eauto.
  - intros Hn; now contradiction Hn.
Qed.

Lemma nothing_is_dispatched_without_a_json_body_witness :
  "POST" <> "GET"
  /\ (exists ct, Some "application/json" = Some ct
                 /\ str_in "application/json" ct = true)
  /\ "{...}" <> ""
  /\ exists items,
       @json_loads
         (decoding_runtime
            (rpc_request (Some (VList [VInt 1; VInt 2])) (VStr "add") (VStr "2.0")
               (VStr "a")))
         "{...}" = Ok items.
Proof.
  apply (@nothing_is_dispatched_without_a_json_body
           (decoding_runtime
              (rpc_request (Some (VList [VInt 1; VInt 2])) (VStr "add") (VStr "2.0")
                 (VStr "a")))
           sample_server (post "{...}")).
  discriminate.
Defined.

(** X14: an exception that leaves [process_request] ends the batch at that
    item: the exception leaves the loop, the items after it are never
    dispatched (the trace stops with the failing item), and the responses
    built so far are dropped. *)
Theorem batch_stops_at_the_escaping_exception `{Runtime}
  (urls : list (string * handler)) (done : list value) (item : value)
  (rest : list value) (t t' : list event) (rs : list value) (e : exn) :
  process_batch urls done = (t, Ok rs) ->
  process_request urls item = (t', Raise e) ->
  process_batch urls (done ++ item :: rest)%list = ((t ++ t')%list, Raise e).
Proof.
  revert t rs. induction done as [|x done IH]; simpl; intros t rs Hdone Hitem.
  - inversion Hdone; subst. now rewrite Hitem.
  - destruct (process_request urls x) as [t1 [r|e1]] eqn:Hx; [|discriminate].
    destruct (process_batch urls done) as [t2 [rs'|e2]] eqn:Hd; [|discriminate].
    inversion Hdone; subst.
    rewrite (IH t2 rs' eq_refl Hitem). now rewrite app_assoc.
Qed.

Lemma batch_stops_at_the_escaping_exception_witness :
  @process_batch plain_runtime (urls quitting_server)
    ([rpc_request (Some (VList [VInt 1; VInt 2])) (VStr "add") (VStr "2.0") (VStr "a")]
     ++ rpc_request (Some (VList [VInt 0])) (VStr "quit") (VStr "2.0") (VStr "b")
     :: [rpc_request (Some (VList [VInt 3; VInt 4])) (VStr "add") (VStr "2.0")
           (VStr "c")])%list
  = (([EvLookup (VStr "add"); EvCall (VStr "add") [VInt 1; VInt 2] []]
      ++ [EvLookup (VStr "quit"); EvCall (VStr "quit") [VInt 0] []])%list,
     Raise (PyBaseException "SystemExit" "0")).
Proof.
  exact (@batch_stops_at_the_escaping_exception plain_runtime (urls quitting_server)
           [rpc_request (Some (VList [VInt 1; VInt 2])) (VStr "add") (VStr "2.0")
              (VStr "a")]
           (rpc_request (Some (VList [VInt 0])) (VStr "quit") (VStr "2.0") (VStr "b"))
           [rpc_request (Some (VList [VInt 3; VInt 4])) (VStr "add") (VStr "2.0")
              (VStr "c")]
           _ _ _ _ eq_refl eq_refl).
Defined.

(** ** Registration *)

(** X5: after any sequence of registrations, the handler found under a
    name is the one registered last under that name; a name that was never
    registered keeps the handler it had, so [ping] stays the built-in one
    unless it is registered anew. *)
Theorem last_registration_wins (regs : list (string * handler))
  (srv : SimpleJsonRpcServer) (name : string) :
  lookup name (urls (registered regs srv)) =
    match lookup name (rev regs) with
    | Some f => Some f
    | None => lookup name (urls srv)
    end.
Proof.
  revert srv. induction regs as [|[n f] rest IH]; intros srv; simpl.
  - reflexivity.
  - unfold registered in *. simpl. rewrite IH, lookup_app. simpl.
    rewrite lookup_dict_set.
    destruct (lookup name (rev rest)); [reflexivity|].
    destruct (n =? name)%string; reflexivity.
Qed.

(** X6: registering a name that is already in the registry keeps the
    order of the names, and so the order of the discovery listing;
    registering a new name puts it last. *)
Theorem registration_keeps_the_listing_order (name : string) (f : handler)
  (srv : SimpleJsonRpcServer) :
  (In name (keys (urls srv)) ->
   keys (urls (register name f srv)) = keys (urls srv))
  /\ (~ In name (keys (urls srv)) ->
      keys (urls (register name f srv)) = (keys (urls srv) ++ [name])%list).
Proof.
  unfold register; simpl.
  induction (urls srv) as [|[k v] rest [IHin IHout]]; simpl.
  - split; [intros []|reflexivity].
  - destruct (String.eqb_spec k name) as [->|Hne]; simpl.
    + split; [reflexivity|]. intros Hn. exfalso. apply Hn. now left.
    + split.
      * intros [Heq|Hin]; [contradiction|]. now rewrite IHin.
      * intros Hn. rewrite IHout; [reflexivity|]. intros Hin. apply Hn. now right.
Qed.

Lemma registration_keeps_the_listing_order_witness :
  keys (urls (register "ping" add_handler sample_server)) = ["ping"; "add"; "fail"]
  /\ keys (urls (register "sub" add_handler sample_server))
     = ["ping"; "add"; "fail"; "sub"].
Proof.
  split.
  - apply (proj1 (registration_keeps_the_listing_order "ping" add_handler
                    sample_server)).
    simpl. now left.
  - apply (proj2 (registration_keeps_the_listing_order "sub" add_handler
                    sample_server)).
    simpl. intros [H|[H|[H|[]]]]; discriminate.
Defined.

(** ** The client, further *)

Lemma getattribute_dynamic `{Runtime} (c : Client.SimpleJsonRpcClient)
  (name : string) :
  dynamic_name name = true ->
  getattribute c name = Dynamic (Client.getattr c name).
Proof.
  unfold dynamic_name, getattribute, Client.instance_dict.
  cbn [lookup existsb].
  rewrite !(String.eqb_sym name).
  destruct ("version" =? name)%string; [discriminate|].
  destruct ("service_url" =? name)%string; [discriminate|].
  destruct ("service_name" =? name)%string; [discriminate|].
  destruct ("headers" =? name)%string; [discriminate|].
  destruct ("send_request" =? name)%string; [discriminate|].
  cbn [orb negb andb].
  destruct (prefix "__" name); [discriminate|reflexivity].
Qed.

Lemma attribute_chain_app `{Runtime} (c c1 : Client.SimpleJsonRpcClient)
  (names more : list string) :
  attribute_chain c names = Some c1 ->
  attribute_chain c (names ++ more)%list = attribute_chain c1 more.
Proof.
  revert c. induction names as [|n rest IH]; simpl; intros c Hc.
  - now inversion Hc.
  - destruct (getattribute c n); try discriminate. now apply IH.
Qed.

Lemma attribute_chain_dynamic `{Runtime} (c : Client.SimpleJsonRpcClient)
  (names : list string) :
  forallb dynamic_name names = true ->
  exists c', attribute_chain c names = Some c'
             /\ (names <> [] -> Client.service_name c' = VNone).
Proof.
  revert c. induction names as [|n rest IH]; simpl; intros c Hall.
  - exists c. split; [reflexivity|]. intros Hne. now contradiction Hne.
  - apply andb_true_iff in Hall as (Hn & Hrest).
    rewrite (getattribute_dynamic c n Hn).
    destruct (IH (Client.getattr c n) Hrest) as (c' & Hc & Hname).
    exists c'. split; [exact Hc|]. intros _.
    destruct rest as [|m rest]; [|apply Hname; discriminate].
    simpl in Hc. now inversion Hc.
Qed.

(** X15: in a chain of two or more attribute accesses that [__getattr__]
    answers (names that are not [version], [service_url], [service_name],
    [headers] or [send_request] and do not start with two underscores),
    the client the chain ends in has no method name, the version ['2.0']
    and the default headers, whatever the first client was built with;
    the name kept inside its [service_url] is the last attribute alone,
    not a dotted path, and its [repr] shows a null method.  An access to
    [version] on it gives the string ['2.0'], not a client.  Only the
    first access composes a dotted name, with the name given to the
    constructor. *)
Theorem attribute_chain_keeps_only_the_last_name `{Runtime}
  (c : Client.SimpleJsonRpcClient) (first : string) (middle : list string)
  (last : string) :
  forallb dynamic_name (first :: middle ++ [last]) = true ->
  exists c',
    attribute_chain c (first :: middle ++ [last]) = Some c'
    /\ Client.service_name c' = VNone
    /\ Client.version c' = VStr "2.0"
    /\ Client.headers c' = VDict [("Content-Type", VStr "application/json")]
    /\ field "service_name" (Client.service_url c') = Some (VStr last)
    /\ repr_data c' = VDict [("version", VStr "2.0"); ("method", VNone)]
    /\ getattribute c' "version" = Stored (VStr "2.0")
    /\ (forall s, Client.service_name c = VStr s ->
          field "service_name" (Client.service_url (Client.getattr c first))
          = Some (VStr (s ++ "." ++ first))).
Proof.
  intros Hall.
  change (first :: middle ++ [last])%list with ((first :: middle) ++ [last])%list
    in *.
  rewrite forallb_app in Hall. apply andb_true_iff in Hall as (Hpre & Hlast).
  simpl in Hlast. rewrite andb_true_r in Hlast.
  destruct (attribute_chain_dynamic c (first :: middle) Hpre) as (c1 & Hc1 & Hn).
  specialize (Hn ltac:(discriminate)).
  exists (Client.getattr c1 last).
  split.
  { rewrite (attribute_chain_app c c1 (first :: middle) [last] Hc1). simpl.
    now rewrite (getattribute_dynamic c1 last Hlast). }
  split; [reflexivity|]. split; [reflexivity|]. split; [reflexivity|].
  split; [unfold Client.getattr; now rewrite Hn|].
  split; [reflexivity|]. split; [reflexivity|].
  intros s Hs. unfold Client.getattr. now rewrite Hs.
Qed.

Lemma attribute_chain_keeps_only_the_last_name_witness :
  exists c',
    @attribute_chain plain_runtime
      (Client.init (VStr "http://h/") (VStr "api") (VStr "1.0") VNone)
      ["a"; "b"; "c"] = Some c'
    /\ Client.service_name c' = VNone
    /\ Client.version c' = VStr "2.0"
    /\ field "service_name" (Client.service_url c') = Some (VStr "c").
Proof.
  destruct (@attribute_chain_keeps_only_the_last_name plain_runtime
              (Client.init (VStr "http://h/") (VStr "api") (VStr "1.0") VNone)
              "a" ["b"] "c" eq_refl)
    as (c' & Hc & Hname & Hversion & _ & Hurl & _).
  exists c'. auto.
Defined.

Lemma list_map_decode_ok `{Runtime} (args params : list value) :
  Client.list_map Client.decode args = Ok params ->
  exists texts,
    params = map VStr texts
    /\ Forall2 (fun a text => Client.decode a = Ok (VStr text)) args texts
    /\ Forall (fun a => is_json_value a = false) args.
Proof.
  revert params. induction args as [|a rest IH]; simpl; intros params Hm.
  - inversion Hm. exists []. repeat split; constructor.
  - destruct (Client.decode a) as [y|e] eqn:Ha; [|discriminate].
    destruct (Client.list_map Client.decode rest) as [ys|e] eqn:Hrest;
      [|discriminate].
    inversion Hm; subst.
    destruct (IH ys eq_refl) as (texts & -> & Hall & Hjson).
    destruct a; simpl in Ha; try discriminate.
    destruct (utf8_decode b) as [text|e] eqn:Hb; [|discriminate].
    inversion Ha; subst.
    exists (text :: texts). split; [reflexivity|]. split.
    + constructor; [simpl; now rewrite Hb|exact Hall].
    + constructor; [reflexivity|exact Hjson].
Qed.

(** X16: whenever [send_request] gets as far as building its payload, it
    was called without keyword arguments, and none of its positional
    arguments was [None], a [bool], an [int], a [float], a [str], a [list]
    or a [dict]: none of these has a [decode] method.  The payload then
    holds the client's version, its [service_name] as method, as [params]
    the texts that [decode("utf-8")] returned on the arguments, in order,
    and the fresh id. *)
Theorem send_request_sends_only_decoded_arguments `{Runtime}
  (c : Client.SimpleJsonRpcClient) (args : list value) (kwargs : dict)
  (request_id : string) (payload : value) :
  Client.send_request_data c args kwargs request_id = Ok payload ->
  kwargs = []
  /\ Forall (fun a => is_json_value a = false) args
  /\ exists texts,
       Forall2 (fun a text => Client.decode a = Ok (VStr text)) args texts
       /\ payload = VDict [("version", Client.version c);
                           ("method", Client.service_name c);
                           ("params", VList (map VStr texts));
                           ("id", VStr request_id)].
Proof.
  destruct kwargs as [|[k v] rest].
  - unfold Client.send_request_data. simpl.
    destruct (Client.list_map Client.decode args) as [params|e] eqn:Hm;
      [|discriminate].
    intros Hp. inversion Hp; subst.
    destruct (list_map_decode_ok args params Hm) as (texts & -> & Hall & Hjson).
    split; [reflexivity|]. split; [exact Hjson|].
    exists texts. split; [exact Hall|reflexivity].
  - rewrite send_request_data_kwargs. discriminate.
Qed.

Lemma send_request_sends_only_decoded_arguments_witness :
  @nil (string * value) = []
  /\ Forall (fun a => is_json_value a = false)
       [VBytes [Byte.x31]; VBytes [Byte.x32]]
  /\ exists texts,
       Forall2 (fun a text => @Client.decode plain_runtime a = Ok (VStr text))
         [VBytes [Byte.x31]; VBytes [Byte.x32]] texts
       /\ VDict [("version", VStr "2.0");
                 ("method", VStr "add");
                 ("params", VList [VStr "1"; VStr "2"]);
                 ("id", VStr "id-1")]
          = VDict [("version", VStr "2.0");
                   ("method", VStr "add");
                   ("params", VList (map VStr texts));
                   ("id", VStr "id-1")].
Proof.
  exact (@send_request_sends_only_decoded_arguments plain_runtime
           (Client.init (VStr "http://h/") (VStr "add") (VStr "2.0") VNone)
           [VBytes [Byte.x31]; VBytes [Byte.x32]] [] "id-1" _ eq_refl).
Defined.

Lemma handler_called_at_most_once_witness :
  exists n a k,
    In (EvCall n a k)
       (fst (@process_request plain_runtime (urls sample_server)
               (rpc_request (Some (VList [VInt 1; VInt 2])) (VStr "add") (VStr "2.0")
                  (VStr "a")))).
Proof.
  exact (proj2 (proj2 (@handler_called_at_most_once plain_runtime
                         (urls sample_server)
                         (rpc_request (Some (VList [VInt 1; VInt 2])) (VStr "add")
                            (VStr "2.0") (VStr "a"))))
           _ eq_refl eq_refl).
Defined.

(** X18: [send_request] never returns a value.  It raises while building
    the payload, while serializing it, or in the network call; and when
    the server has answered, the answer having been read into a [bytes]
    object, it raises [AttributeError] on the second [read()]. *)
Theorem send_request_never_returns `{Runtime}
  (c : Client.SimpleJsonRpcClient) (args : list value) (kwargs : dict)
  (request_id : string)
  (network : value -> string -> value -> res (list Byte.byte)) :
  (exists e, send_request c args kwargs request_id network = Raise e)
  /\ (forall data text answer,
        Client.send_request_data c args kwargs request_id = Ok data ->
        json_dumps data = Ok text ->
        network (Client.service_url c) text (Client.headers c) = Ok answer ->
        send_request c args kwargs request_id network =
          Raise (PyException "AttributeError"
                   "'bytes' object has no attribute 'read'")).
Proof.
  unfold send_request. split.
  - destruct (Client.send_request_data c args kwargs request_id) as [data|e];
      [|eauto].
    destruct (json_dumps data) as [text|e]; [|eauto].
    destruct (network (Client.service_url c) text (Client.headers c)); eauto.
  - intros data text answer -> -> ->. reflexivity.
Qed.

Lemma send_request_never_returns_witness :
  @send_request plain_runtime
    (Client.init (VStr "http://h/") (VStr "add") (VStr "2.0") VNone)
    [VBytes [Byte.x31]] [] "id-1" (fun _ _ _ => Ok [Byte.x7b; Byte.x7d])
  = Raise (PyException "AttributeError" "'bytes' object has no attribute 'read'").
Proof.
  exact (proj2 (@send_request_never_returns plain_runtime
                  (Client.init (VStr "http://h/") (VStr "add") (VStr "2.0") VNone)
                  [VBytes [Byte.x31]] [] "id-1" (fun _ _ _ => Ok [Byte.x7b; Byte.x7d]))
           _ _ _ eq_refl eq_refl eq_refl).
Defined.
